(** * Stock teacher: verdict engine, lot sizer and report loop

    A shallow embedding of [src/main.py] (console report) and [src/app.py]
    (Streamlit page) of the stock analysis repository.

    Number model.  The Python code computes on floats.  Here a float is an
    exact rational ([Q]): comparisons, [math.ceil] and the four operations
    are the exact ones, the literal [0.0003] is [3/10000], and neither
    rounding, infinities nor NaN exist.  A division by zero raises
    [ZeroDivisionError], as Python's float division does.  Everything the
    development states is about the branching structure of the code and the
    exact values it passes along.

    External code.  [yfinance], [pandas] and [ta] are not part of the
    repository: their results are taken as parameters (a ticker's bars, its
    [info] dictionary, the indicator columns). *)

From Stdlib Require Import ZArith QArith Qround String List Bool Lia Lqa.
Import ListNotations.

Local Open Scope string_scope.
Local Open Scope Q_scope.

(** ** Python primitives used by the two files *)

Module Py.

Inductive exn : Type :=
| ZeroDivisionError.

(** Outcome of a call: a returned value or a raised exception. *)
Inductive result (A : Type) : Type :=
| Ret (a : A)
| Raise (e : exn).
Arguments Ret {A} a.
Arguments Raise {A} e.

Definition bind {A B : Type} (m : result A) (k : A -> result B) : result B :=
  match m with
  | Ret a => k a
  | Raise e => Raise e
  end.

(** [x < y] and [x > y] on numbers. *)
Definition lt (x y : Q) : bool := negb (Qle_bool y x).
Definition gt (x y : Q) : bool := lt y x.

(** [x / y] on floats. *)
Definition truediv (x y : Q) : result Q :=
  if Qeq_bool y 0 then Raise ZeroDivisionError else Ret (x / y).

(** [math.ceil], an [int]. *)
Definition ceil (x : Q) : Z := Qceiling x.

(** [range(a, b)]. *)
Fixpoint range_from (a : Z) (n : nat) : list Z :=
  match n with
  | O => []
  | S n' => a :: range_from (a + 1) n'
  end.

Definition range (a b : Z) : list Z := range_from a (Z.to_nat (b - a)).

(** [s.endswith(suffix)]. *)
Definition endswith (s suffix : string) : bool :=
  let n := String.length s in
  let k := String.length suffix in
  (k <=? n)%nat && String.eqb (substring (n - k) k s) suffix.

End Py.

Import Py.

Notation "'do' x <- m ; k" := (bind m (fun x => k))
  (at level 10, x name, m at level 100, k at level 200).

(** ** Fee calculator (Malaysia only)

    [calculate_min_lots], main.py lines 71-95; app.py lines 58-73 hold the
    same statements without the comments. *)

Record LotSuggestion : Type := mkLots {
  lots : Z;
  cost : Q;
  fee_pct : Q
}.

Definition total_value (price_per_unit : Q) (lots : Z) : Q :=
  price_per_unit * 100 * inject_Z lots.

Definition stamp_duty (total_value : Q) : Z :=
  let stamp_duty := ceil (total_value / 1000) in
  if (stamp_duty <? 1)%Z then 1%Z else stamp_duty.

Definition clearing_fee (total_value : Q) : Q := total_value * (3 # 10000).

Definition platform_fee : Q := 3.

Definition total_fee (total_value : Q) : Q :=
  platform_fee + inject_Z (stamp_duty total_value) + clearing_fee total_value.

Definition fee_percentage (total_value : Q) : result Q :=
  do q <- truediv (total_fee total_value) total_value;
  Ret (q * 100).

(** The [for lots in range(1, 100)] loop; the empty range is the statement
    after the loop. *)
Fixpoint scan_lots (price_per_unit : Q) (rng : list Z)
  : result (option LotSuggestion) :=
  match rng with
  | [] =>
      Ret (Some {| lots := 1; cost := price_per_unit * 100; fee_pct := 100 |})
  | lots :: rest =>
      let total_value := total_value price_per_unit lots in
      do fee_percentage <- fee_percentage total_value;
      if lt fee_percentage 1
      then Ret (Some {| lots := lots; cost := total_value;
                        fee_pct := fee_percentage |})
      else scan_lots price_per_unit rest
  end.

Definition calculate_min_lots (price_per_unit : Q) (ticker : string)
  : result (option LotSuggestion) :=
  if negb (endswith ticker ".KL") then Ret None
  else scan_lots price_per_unit (range 1 100).

(** ** The verdict engine

    [analyze_stock] returns the dictionary modelled by [Snapshot]; the two
    copies of [generate_long_term_verdict] read it. *)

Record Snapshot : Type := mkSnapshot {
  price : Q;
  rsi : Q;
  sma50 : Q;
  sma200 : Q;
  volume_strong : bool
}.

(** main.py, lines 123-167. *)
Module Main.

Record Verdict : Type := mkVerdict {
  category : string;
  verdict : string;
  target_price : Q
}.

Definition generate_long_term_verdict (stock_data : Snapshot) : Verdict :=
  let price := price stock_data in
  let sma50 := sma50 stock_data in
  let sma200 := sma200 stock_data in
  let rsi := rsi stock_data in
  let vol_strong := volume_strong stock_data in
  let is_bull_market := gt sma50 sma200 in
  let is_price_healthy := gt price sma200 in
  let verdict := "" in
  let '(category, target_price) :=
    if is_bull_market && is_price_healthy then
      if lt rsi 55 then ("💎 STRONG BUY (Discount)", price)
      else if gt rsi 70 then ("✅ HOLD / WAIT (Overheated)", sma50)
      else
        if vol_strong then ("🚀 BUY (High Momentum)", price)
        else ("📈 BUY / ACCUMULATE", price)
    else if negb is_bull_market then ("⛔ AVOID / SELL", 0)
    else ("⚠️ CAUTION (Trend Testing)", sma200) in
  {| category := category; verdict := verdict;
     target_price := target_price |}.

End Main.

(** app.py, lines 95-121. *)
Module App.

Record Verdict : Type := mkVerdict {
  category : string;
  target_price : Q
}.

Definition generate_long_term_verdict (stock_data : Snapshot) : Verdict :=
  let price := price stock_data in
  let sma50 := sma50 stock_data in
  let sma200 := sma200 stock_data in
  let rsi := rsi stock_data in
  let vol_strong := volume_strong stock_data in
  let is_bull_market := gt sma50 sma200 in
  let is_price_healthy := gt price sma200 in
  let '(category, target_price) :=
    if is_bull_market && is_price_healthy then
      if lt rsi 55 then ("💎 STRONG BUY (Discount)", price)
      else if gt rsi 70 then ("✅ HOLD / WAIT (Overheated)", sma50)
      else
        ((if vol_strong then "🚀 BUY (High Momentum)"
          else "📈 BUY / ACCUMULATE"), price)
    else if negb is_bull_market then ("⛔ AVOID / SELL", 0)
    else ("⚠️ CAUTION (Trend Testing)", sma200) in
  {| category := category; target_price := target_price |}.

End App.

(** The six labels, under the names the specification gives them. *)
Definition STRONG_BUY_DISCOUNT : string := "💎 STRONG BUY (Discount)".
Definition HOLD_OVERHEATED : string := "✅ HOLD / WAIT (Overheated)".
Definition BUY_HIGH_MOMENTUM : string := "🚀 BUY (High Momentum)".
Definition BUY_ACCUMULATE : string := "📈 BUY / ACCUMULATE".
Definition AVOID_SELL : string := "⛔ AVOID / SELL".
Definition CAUTION_TREND_TESTING : string := "⚠️ CAUTION (Trend Testing)".

(** ** The target message

    main.py lines 216-222 and app.py lines 172-178.  The f-string of the
    first branch is kept as its three arguments: the currency, the target
    and the discount. *)

Inductive TargetStr : Type :=
| WaitFor (curr : string) (target discount : Q)
| BuyNow
| NoEntry.

(** The division of the first branch runs under [price > target > 0], so
    its divisor is never zero. *)
Definition target_str (curr : string) (price target : Q) : TargetStr :=
  if gt target 0 && gt price target then
    let discount := ((price - target) / price) * 100 in
    WaitFor curr target discount
  else if gt target 0 then BuyNow
  else NoEntry.

(** ** Ticker metadata

    [t.info] is a dictionary.  A name is absent ([None]: no key, or the
    value [None]) or a string; a numeric entry is absent (no key), the
    value [None], or a number. *)

Inductive PyVal : Type :=
| PyNone
| PyNum (x : Q).

Record Info : Type := mkInfo {
  longName : option string;
  shortName : option string;
  dividendRate : option PyVal;
  currentPrice : option PyVal;
  previousClose : option PyVal;
  dividendYield : option PyVal
}.

(** [info.get(key, default)]. *)
Definition info_get (entry : option PyVal) (default : PyVal) : PyVal :=
  match entry with
  | Some v => v
  | None => default
  end.

(** Truth value of a number or [None], and of a name. *)
Definition truthy (v : PyVal) : bool :=
  match v with
  | PyNone => false
  | PyNum x => negb (Qeq_bool x 0)
  end.

Definition str_truthy (s : option string) : bool :=
  match s with
  | None => false
  | Some s => negb (String.eqb s "")
  end.

(** [a or b]. *)
Definition py_or (a b : PyVal) : PyVal := if truthy a then a else b.

(** [a or b] where [b] is a string: the name that is kept. *)
Definition str_or (a : option string) (b : string) : string :=
  match a with
  | Some s => if str_truthy a then s else b
  | None => b
  end.

(** A name inside an f-string. *)
Definition str_of (a : option string) : string :=
  match a with
  | Some s => s
  | None => "None"
  end.

(** [long_name != short_name]. *)
Definition str_ne (a b : option string) : bool :=
  match a, b with
  | Some a, Some b => negb (String.eqb a b)
  | None, None => false
  | _, _ => true
  end.

(** The smart currency detector, the same in both files. *)
Definition currency_of (ticker : string) : string :=
  if endswith ticker ".KL" then "RM"
  else if endswith ticker ".HK" then "HKD"
  else "USD".

(** The yield computed by hand, the same in both files (main.py lines
    52-64, app.py lines 39-51).  The division runs under
    [current_price > 0]. *)
Definition yield_pct_of (info : Info) : Q :=
  let div_rate := info_get (dividendRate info) (PyNum 0) in
  let current_price :=
    py_or (info_get (currentPrice info) (PyNum 0))
          (info_get (previousClose info) (PyNum 0)) in
  let fallback :=
    let raw_yield := info_get (dividendYield info) (PyNum 0) in
    match raw_yield with
    | PyNone => 0
    | PyNum raw_yield => if lt raw_yield 1 then raw_yield * 100 else raw_yield
    end in
  match div_rate, current_price with
  | PyNum rate, PyNum cp =>
      if truthy div_rate && truthy current_price && gt cp 0
      then (rate / cp) * 100
      else fallback
  | _, _ => fallback
  end.

(** ** The outside world

    What [yfinance], [pandas] and [ta] give: the bars of a ticker (the empty
    frame when the download fails, as [fetch_data] returns), its [info]
    ([None] when the lookup raises), and the indicator columns, each as long
    as the column it is computed from. *)

Record PriceBar : Type := mkBar {
  Open : Q;
  High : Q;
  Low : Q;
  Close : Q;
  Volume : Q
}.

Class External : Type := {
  fetch_data : string -> list PriceBar;
  ticker_info : string -> option Info;
  ta_rsi : list Q -> nat -> list Q;
  ta_sma_indicator : list Q -> nat -> list Q;
  rolling_mean : list Q -> nat -> list Q
}.

(** [series.iloc[-1]]. *)
Definition iloc_last (col : list Q) : Q := last col 0.

(** ** Technical analysis: [analyze_stock], main.py lines 98-120 and
    app.py lines 76-92 *)

Definition analyze_stock `{External} (df : list PriceBar) : option Snapshot :=
  if (List.length df <? 200)%nat then None
  else
    let RSI := ta_rsi (map Close df) 14 in
    let SMA_50 := ta_sma_indicator (map Close df) 50 in
    let SMA_200 := ta_sma_indicator (map Close df) 200 in
    let Vol_Avg := rolling_mean (map Volume df) 20 in
    let is_high_volume :=
      gt (iloc_last (map Volume df)) (iloc_last Vol_Avg * (12 # 10)) in
    Some {| price := iloc_last (map Close df);
            rsi := iloc_last RSI;
            sma50 := iloc_last SMA_50;
            sma200 := iloc_last SMA_200;
            volume_strong := is_high_volume |}.

(** ** [get_stock_info] *)

(** main.py, lines 27-68. *)
Definition main_get_stock_info `{External} (ticker : string)
  : string * Q * string :=
  match ticker_info ticker with
  | None => (ticker, 0, "N/A")
  | Some info =>
      let long_name := longName info in
      let short_name := shortName info in
      let name :=
        if str_truthy long_name && str_truthy short_name
           && str_ne long_name short_name
        then str_of long_name ++ " - " ++ str_of short_name
        else str_or long_name (str_or short_name ticker) in
      (name, yield_pct_of info, currency_of ticker)
  end.

(** app.py, lines 25-55. *)
Definition app_get_stock_info `{External} (ticker : string)
  : string * Q * string :=
  match ticker_info ticker with
  | None => (ticker, 0, "N/A")
  | Some info =>
      let name := str_or (shortName info) (str_or (longName info) ticker) in
      (name, yield_pct_of info, currency_of ticker)
  end.

(** ** The driving loop of main.py, lines 180-198

    [stats] is the dictionary of [analyze_stock] with the keys the loop adds
    to it. *)

Record Stats : Type := mkStats {
  snapshot : Snapshot;
  ticker : string;
  name : string;
  currency : string;
  div_yield : Q;
  analysis : Main.Verdict;
  smart_lots : option LotSuggestion
}.

(** [df.empty]. *)
Definition empty (df : list PriceBar) : bool :=
  match df with
  | [] => true
  | _ :: _ => false
  end.

(** One turn of the loop: the record appended for [ticker], if any. *)
Definition analyze_ticker `{External} (ticker : string)
  : result (option Stats) :=
  let '(name, div_yield, currency) := main_get_stock_info ticker in
  let df := fetch_data ticker in
  if negb (empty df) then
    match analyze_stock df with
    | Some stats =>
        let analysis := Main.generate_long_term_verdict stats in
        do smart_lots <- calculate_min_lots (price stats) ticker;
        Ret (Some {| snapshot := stats; ticker := ticker; name := name;
                     currency := currency; div_yield := div_yield;
                     analysis := analysis; smart_lots := smart_lots |})
    | None => Ret None
    end
  else Ret None.

Fixpoint analyze_tickers `{External} (tickers : list string)
    (portfolio_analysis : list Stats) : result (list Stats) :=
  match tickers with
  | [] => Ret portfolio_analysis
  | ticker :: rest =>
      do stats <- analyze_ticker ticker;
      match stats with
      | Some stats => analyze_tickers rest (portfolio_analysis ++ [stats])
      | None => analyze_tickers rest portfolio_analysis
      end
  end.

(** The report set of a run over [tickers]. *)
Definition portfolio `{External} (tickers : list string)
  : result (list Stats) :=
  analyze_tickers tickers [].

(** ** What is shown for a ticker

    The final report of main.py (lines 205-245) prints, and the page of
    app.py (lines 146-191) writes, the same items for a ticker; [Shown]
    holds them, the formatted numbers as numbers and the suggestion lines
    as a [Suggestion]. *)

Inductive Suggestion : Type :=
| BuyLots (lots : Z) (curr : string) (cost fee_pct : Q)
| BuyOneUnit (curr : string) (price : Q).

Record Shown : Type := mkShown {
  shown_name : string;
  shown_ticker : string;
  shown_currency : string;
  shown_price : Q;
  shown_yield : Q;
  shown_rsi : Q;
  shown_volume : string;
  shown_trend : string;
  shown_sma50 : Q;
  shown_sma200 : Q;
  shown_verdict : string;
  shown_target : TargetStr;
  shown_suggestion : option Suggestion
}.

Definition vol_msg (volume_strong : bool) : string :=
  if volume_strong then "🔥 HIGH" else "Normal".

Definition trend_icon (sma50 sma200 : Q) : string :=
  if gt sma50 sma200 then "🌟 GOLDEN" else "💀 DEATH".

(** The suggestion logic: [if lots_data:] holds of a dictionary and fails
    of [None]. *)
Definition suggestion (lots_data : option LotSuggestion) (curr : string)
    (price target : Q) : option Suggestion :=
  match lots_data with
  | Some lots_data =>
      if gt target 0
      then Some (BuyLots (lots lots_data) curr (cost lots_data)
                         (fee_pct lots_data))
      else None
  | None =>
      if gt target 0 then Some (BuyOneUnit curr price) else None
  end.

(** One turn of the report loop of main.py. *)
Definition report_item (item : Stats) : Shown :=
  let a := analysis item in
  let price := price (snapshot item) in
  let target := Main.target_price a in
  let sma50 := sma50 (snapshot item) in
  let sma200 := sma200 (snapshot item) in
  let curr := currency item in
  {| shown_name := name item;
     shown_ticker := ticker item;
     shown_currency := curr;
     shown_price := price;
     shown_yield := div_yield item;
     shown_rsi := rsi (snapshot item);
     shown_volume := vol_msg (volume_strong (snapshot item));
     shown_trend := trend_icon sma50 sma200;
     shown_sma50 := sma50;
     shown_sma200 := sma200;
     shown_verdict := Main.category a;
     shown_target := target_str curr price target;
     shown_suggestion := suggestion (smart_lots item) curr price target |}.

(** The report of main.py over [tickers]. *)
Definition main_report `{External} (tickers : list string)
  : result (list Shown) :=
  do portfolio_analysis <- portfolio tickers;
  Ret (map report_item portfolio_analysis).

(** One turn of the loop of app.py (lines 138-194): what the page shows for
    [ticker], if anything. *)
Definition app_show_ticker `{External} (ticker : string)
  : result (option Shown) :=
  let '(name, div_yield, currency) := app_get_stock_info ticker in
  let df := fetch_data ticker in
  if negb (empty df) then
    match analyze_stock df with
    | Some stats =>
        let a := App.generate_long_term_verdict stats in
        let price := price stats in
        let target := App.target_price a in
        let sma50 := sma50 stats in
        let sma200 := sma200 stats in
        do lots_data <- calculate_min_lots price ticker;
        Ret (Some
          {| shown_name := name;
             shown_ticker := ticker;
             shown_currency := currency;
             shown_price := price;
             shown_yield := div_yield;
             shown_rsi := rsi stats;
             shown_volume := vol_msg (volume_strong stats);
             shown_trend := trend_icon sma50 sma200;
             shown_sma50 := sma50;
             shown_sma200 := sma200;
             shown_verdict := App.category a;
             shown_target := target_str currency price target;
             shown_suggestion :=
               suggestion lots_data currency price target |})
    | None => Ret None
    end
  else Ret None.

(** ** The specification's wording

    The fee percentage of a lot count, and the metadata entries the yield
    is computed from, as the specification names them. *)
Module Spec.

Definition tradeValue (p : Q) (L : Z) : Q := p * 100 * inject_Z L.

Definition stampDuty (p : Q) (L : Z) : Z :=
  Z.max 1 (Qceiling (tradeValue p L / 1000)).

Definition clearingFee (p : Q) (L : Z) : Q := tradeValue p L * (3 # 10000).

Definition platformFee : Q := 3.

Definition totalFee (p : Q) (L : Z) : Q :=
  platformFee + inject_Z (stampDuty p L) + clearingFee p L.

Definition feePercent (p : Q) (L : Z) : Q :=
  totalFee p L / tradeValue p L * 100.

(** An entry of the metadata that is present and usable: a number other
    than 0. *)
Definition present (entry : option PyVal) : option Q :=
  match entry with
  | Some (PyNum x) => if Qeq_bool x 0 then None else Some x
  | _ => None
  end.

Definition dividendRatePerShare (info : Info) : option Q :=
  present (dividendRate info).

Definition currentOrPreviousClose (info : Info) : option Q :=
  match present (currentPrice info) with
  | Some c => Some c
  | None => present (previousClose info)
  end.

End Spec.

(** Metadata with a dividend rate of 0, a price and a raw yield of 5%. *)
Definition zero_rate_info : Info :=
  {| longName := Some "Example Berhad";
     shortName := Some "EXAMPLE";
     dividendRate := Some (PyNum 0);
     currentPrice := Some (PyNum 10);
     previousClose := Some (PyNum 10);
     dividendYield := Some (PyNum (5 # 100)) |}.

(** ** A small world to run the loop in

    Flat bars, for which the moving averages are the closing price itself
    and the relative-strength index is 100; [SHORT.KL] has 150 bars, every
    other ticker 250, and no ticker has metadata. *)

Definition flat_bar : PriceBar :=
  {| Open := 10; High := 10; Low := 10; Close := 10; Volume := 1000 |}.

Definition flat_world : External :=
  {| fetch_data := fun ticker =>
       if String.eqb ticker "SHORT.KL" then repeat flat_bar 150
       else repeat flat_bar 250;
     ticker_info := fun _ => None;
     ta_rsi := fun col _ => map (fun _ => 100) col;
     ta_sma_indicator := fun col _ => col;
     rolling_mean := fun col _ => col |}.

(** A rising market: 250 bars closing at 10 with the 50-bar average at 9,
    the 200-bar average at 8 and the relative-strength index at 75; every
    ticker has both names. *)
Definition rising_info : Info :=
  {| longName := Some "Malayan Banking Berhad";
     shortName := Some "MAYBANK";
     dividendRate := Some (PyNum (6 # 10));
     currentPrice := Some (PyNum 10);
     previousClose := Some (PyNum 10);
     dividendYield := Some (PyNum (6 # 100)) |}.

Definition rising_world : External :=
  {| fetch_data := fun _ => repeat flat_bar 250;
     ticker_info := fun _ => Some rising_info;
     ta_rsi := fun col _ => map (fun _ => 75) col;
     ta_sma_indicator := fun col window =>
       if (window =? 50)%nat then map (fun _ => 9) col
       else map (fun _ => 8) col;
     rolling_mean := fun col _ => col |}.

(** ** Lemmas on the primitives *)

Lemma lt_true_iff (x y : Q) : lt x y = true <-> x < y.
Proof.
  unfold lt. rewrite negb_true_iff.
  split; intro H.
  - apply Qnot_le_lt. intro Hle.
    apply Qle_bool_iff in Hle. congruence.
  - destruct (Qle_bool y x) eqn:E; [|reflexivity].
    apply Qle_bool_iff in E. exfalso. apply (Qlt_not_le _ _ H E).
Qed.

Lemma lt_false_iff (x y : Q) : lt x y = false <-> y <= x.
Proof.
  unfold lt. rewrite negb_false_iff. apply Qle_bool_iff.
Qed.

Lemma truediv_nonzero (x y : Q) : ~ y == 0 -> truediv x y = Ret (x / y).
Proof.
  intro H. unfold truediv.
  destruct (Qeq_bool y 0) eqn:E; [|reflexivity].
  apply Qeq_bool_iff in E. contradiction.
Qed.



(** [endswith] holds exactly of the strings made of a prefix and the
    suffix. *)
Lemma length_append (s1 s2 : string) :
  String.length (s1 ++ s2) = (String.length s1 + String.length s2)%nat.
Proof.
  induction s1 as [|c s1 IH]; simpl; [reflexivity|].
  rewrite IH. reflexivity.
Qed.

Lemma substring_whole (s : string) : substring 0 (String.length s) s = s.
Proof.
  induction s as [|c s IH]; simpl; [reflexivity|].
  rewrite IH. reflexivity.
Qed.

Lemma substring_append_skip (pre s : string) (k : nat) :
  substring (String.length pre) k (pre ++ s) = substring 0 k s.
Proof.
  induction pre as [|c pre IH]; simpl; [reflexivity|exact IH].
Qed.

Lemma substring_split (s : string) :
  forall m : nat,
    (m <= String.length s)%nat ->
    s = substring 0 m s ++ substring m (String.length s - m) s.
Proof.
  induction s as [|c s IH]; intros m Hm.
  - simpl in Hm. assert (m = 0%nat) by lia. subst m. reflexivity.
  - destruct m as [|m].
    + simpl. rewrite substring_whole. reflexivity.
    + simpl in Hm. simpl. f_equal. apply IH. lia.
Qed.

Lemma endswith_iff (s suffix : string) :
  endswith s suffix = true <-> exists pre, s = pre ++ suffix.
Proof.
  unfold endswith. rewrite andb_true_iff, Nat.leb_le, String.eqb_eq.
  split.
  - intros [Hle Hsub].
    exists (substring 0 (String.length s - String.length suffix) s).
    pose proof (substring_split s
      (String.length s - String.length suffix) ltac:(lia)) as Hsplit.
    replace (String.length s - (String.length s - String.length suffix))%nat
      with (String.length suffix) in Hsplit by lia.
    rewrite Hsub in Hsplit. exact Hsplit.
  - intros [pre ->]. rewrite length_append. split; [lia|].
    replace (String.length pre + String.length suffix
             - String.length suffix)%nat with (String.length pre) by lia.
    rewrite substring_append_skip. apply substring_whole.
Qed.

(** ** The fee calculator *)

Lemma total_value_pos (p : Q) (l : Z) :
  0 < p -> (1 <= l)%Z -> 0 < total_value p l.
Proof.
  intros Hp Hl. unfold total_value.
  assert (H1 : 1 <= inject_Z l).
  { change 1 with (inject_Z 1). rewrite <- Zle_Qle. exact Hl. }
  nra.
Qed.

Lemma stamp_duty_max (tv : Q) : stamp_duty tv = Z.max 1 (Qceiling (tv / 1000)).
Proof.
  unfold stamp_duty, ceil.
  destruct (Z.ltb_spec (Qceiling (tv / 1000)) 1); lia.
Qed.

(** On a positive trade value the division does not raise, and the code's
    percentage is the specification's. *)
Lemma fee_percentage_spec (p : Q) (l : Z) :
  0 < p -> (1 <= l)%Z ->
  fee_percentage (total_value p l) = Ret (Spec.feePercent p l).
Proof.
  intros Hp Hl.
  pose proof (total_value_pos p l Hp Hl) as Hpos.
  unfold fee_percentage.
  rewrite truediv_nonzero by (intro E; rewrite E in Hpos; discriminate).
  simpl bind.
  unfold total_fee. rewrite stamp_duty_max. reflexivity.
Qed.

(** One turn of the loop at a positive price and a lot count of at least 1. *)
Lemma scan_lots_cons (p : Q) (l : Z) (rest : list Z) :
  0 < p -> (1 <= l)%Z ->
  scan_lots p (l :: rest) =
  if lt (Spec.feePercent p l) 1
  then Ret (Some {| lots := l; cost := total_value p l;
                    fee_pct := Spec.feePercent p l |})
  else scan_lots p rest.
Proof.
  intros Hp Hl. simpl scan_lots.
  rewrite (fee_percentage_spec p l Hp Hl). reflexivity.
Qed.



(** Whatever the scan returns is a suggestion, of the fallback or of a count
    of the range. *)
Lemma scan_lots_result (p : Q) (Hp : 0 < p) (n : nat) :
  forall a : Z,
    (1 <= a)%Z ->
    exists r, scan_lots p (range_from a n) = Ret (Some r) /\
      ((lots r = 1%Z /\ cost r = p * 100) \/
       ((a <= lots r < a + Z.of_nat n)%Z /\ cost r = total_value p (lots r))).
Proof.
  induction n as [|n IH]; intros a Ha.
  - eexists. split; [reflexivity|]. left. split; reflexivity.
  - simpl range_from. rewrite scan_lots_cons by assumption.
    destruct (lt (Spec.feePercent p a) 1).
    + eexists. split; [reflexivity|]. right. simpl. split; [lia|reflexivity].
    + destruct (IH (a + 1)%Z) as [r [Hr Hcases]]; [lia|].
      exists r. split; [exact Hr|].
      destruct Hcases as [Hfb|[Hrng Hcost]]; [left; exact Hfb|right].
      split; [lia|exact Hcost].
Qed.





(** C5.  For a ticker that does not end in [.KL] the lot sizer returns
    [None] at every price, so at every positive one: the result is no
    suggestion at all, in particular not a suggestion of zero lots, and it
    does not depend on the price, the loop being never entered. *)
Theorem calculate_min_lots_not_applicable (p : Q) (ticker : string) :
  endswith ticker ".KL" = false ->
  calculate_min_lots p ticker = Ret None /\
  (forall r : LotSuggestion, calculate_min_lots p ticker <> Ret (Some r)) /\
  (forall p' : Q, calculate_min_lots p' ticker = calculate_min_lots p ticker).
Proof.
  intro Hkl. unfold calculate_min_lots. rewrite Hkl. simpl.
  split; [reflexivity|]. split; [|reflexivity].
  intros r H. discriminate H.
Qed.

Lemma calculate_min_lots_not_applicable_witness :
  endswith "0700.HK" ".KL" = false /\
  calculate_min_lots 350 "0700.HK" = Ret None /\
  endswith "AAPL" ".KL" = false /\
  calculate_min_lots 200 "AAPL" = Ret None.
Proof.
  split; [reflexivity|].
  split; [exact (proj1 (calculate_min_lots_not_applicable
                          350 "0700.HK" eq_refl))|].
  split; [reflexivity|].
  exact (proj1 (calculate_min_lots_not_applicable 200 "AAPL" eq_refl)).
Defined.

(** The search itself is not total: at the price 0 it divides by zero, where
    a ticker of another market still gets [None]. *)
Example calculate_min_lots_zero_price :
  calculate_min_lots 0 "1155.KL" = Raise ZeroDivisionError /\
  calculate_min_lots 0 "AAPL" = Ret None.
Proof. split; reflexivity. Qed.

(** C10.  For a positive unit price and a ticker ending in [.KL] the lot
    sizer returns a suggestion, and every suggestion it returns, the
    fallback included, has between 1 and 99 lots and the cost
    price * 100 * lots. *)
Theorem calculate_min_lots_invariant (p : Q) (ticker : string) :
  0 < p ->
  endswith ticker ".KL" = true ->
  (exists r, calculate_min_lots p ticker = Ret (Some r)) /\
  (forall r : LotSuggestion,
      calculate_min_lots p ticker = Ret (Some r) ->
      (1 <= lots r <= 99)%Z /\ cost r == p * 100 * inject_Z (lots r)).
Proof.
  intros Hp Hkl. unfold calculate_min_lots. rewrite Hkl. simpl negb. cbv iota.
  destruct (scan_lots_result p Hp 99 1) as [r0 [Hr0 Hcases]]; [lia|].
  change (range 1 100) with (range_from 1 99).
  split; [exists r0; exact Hr0|].
  intros r Hr. rewrite Hr0 in Hr. injection Hr as <-.
  destruct Hcases as [[Hl Hc]|[Hl Hc]].
  - rewrite Hl, Hc. split; [lia|]. simpl inject_Z. ring.
  - rewrite Hc. split; [lia|]. unfold total_value. reflexivity.
Qed.

Lemma calculate_min_lots_invariant_witness :
  0 < 10 /\ endswith "1155.KL" ".KL" = true /\
  exists r, calculate_min_lots 10 "1155.KL" = Ret (Some r) /\
            (1 <= lots r <= 99)%Z /\ cost r == 10 * 100 * inject_Z (lots r).
Proof.
  split; [reflexivity|]. split; [reflexivity|].
  destruct (calculate_min_lots_invariant 10 "1155.KL" eq_refl eq_refl)
    as [[r Hr] Hall].
  exists r. split; [exact Hr|]. exact (Hall r Hr).
Defined.

(** ** The verdict engine *)

Lemma gt_true_iff (x y : Q) : gt x y = true <-> y < x.
Proof. unfold gt. apply lt_true_iff. Qed.

Lemma gt_false_iff (x y : Q) : gt x y = false <-> x <= y.
Proof. unfold gt. apply lt_false_iff. Qed.

(** C9.  The two copies of the verdict engine return the same category and
    the same target price on every snapshot. *)
Theorem generate_long_term_verdict_copies_agree (stock_data : Snapshot) :
  App.category (App.generate_long_term_verdict stock_data) =
  Main.category (Main.generate_long_term_verdict stock_data)
  /\
  App.target_price (App.generate_long_term_verdict stock_data) =
  Main.target_price (Main.generate_long_term_verdict stock_data).
Proof.
  destruct stock_data as [p r s50 s200 vol].
  unfold App.generate_long_term_verdict, Main.generate_long_term_verdict.
  cbn [price rsi sma50 sma200 volume_strong].
  destruct (gt s50 s200), (gt p s200); cbn [andb negb];
    try (split; reflexivity).
  destruct (lt r 55); [split; reflexivity|].
  destruct (gt r 70); [split; reflexivity|].
  destruct vol; split; reflexivity.
Qed.

(** C2.  When sma50 <= sma200, both copies return the category AVOID / SELL
    and the target price 0, whatever rsi, price and volume_strong are. *)
Theorem generate_long_term_verdict_bear (stock_data : Snapshot) :
  sma50 stock_data <= sma200 stock_data ->
  Main.category (Main.generate_long_term_verdict stock_data) = AVOID_SELL /\
  Main.target_price (Main.generate_long_term_verdict stock_data) = 0 /\
  App.category (App.generate_long_term_verdict stock_data) = AVOID_SELL /\
  App.target_price (App.generate_long_term_verdict stock_data) = 0.
Proof.
  intro Hbear. apply gt_false_iff in Hbear.
  unfold App.generate_long_term_verdict, Main.generate_long_term_verdict.
  rewrite Hbear. cbn [andb negb].
  repeat split; reflexivity.
Qed.

Lemma generate_long_term_verdict_bear_witness :
  let s := {| price := 120; rsi := 40; sma50 := 100; sma200 := 100;
              volume_strong := true |} in
  sma50 s <= sma200 s /\
  Main.category (Main.generate_long_term_verdict s) = AVOID_SELL /\
  Main.target_price (Main.generate_long_term_verdict s) = 0.
Proof.
  intro s.
  assert (H : sma50 s <= sma200 s) by (vm_compute; discriminate).
  split; [exact H|].
  destruct (generate_long_term_verdict_bear s H) as [Hc [Ht _]].
  split; [exact Hc|exact Ht].
Defined.

(** C3.  When sma50 > sma200, price > sma200 and rsi < 55, both copies
    return the category STRONG BUY (Discount) and the snapshot's price as
    target price. *)
Theorem generate_long_term_verdict_strong_buy (stock_data : Snapshot) :
  sma200 stock_data < sma50 stock_data ->
  sma200 stock_data < price stock_data ->
  rsi stock_data < 55 ->
  Main.category (Main.generate_long_term_verdict stock_data)
    = STRONG_BUY_DISCOUNT /\
  Main.target_price (Main.generate_long_term_verdict stock_data)
    = price stock_data /\
  App.category (App.generate_long_term_verdict stock_data)
    = STRONG_BUY_DISCOUNT /\
  App.target_price (App.generate_long_term_verdict stock_data)
    = price stock_data.
Proof.
  intros Hbull Hhealthy Hrsi.
  apply gt_true_iff in Hbull. apply gt_true_iff in Hhealthy.
  apply lt_true_iff in Hrsi.
  unfold App.generate_long_term_verdict, Main.generate_long_term_verdict.
  rewrite Hbull, Hhealthy, Hrsi. cbn [andb].
  repeat split; reflexivity.
Qed.

Lemma generate_long_term_verdict_strong_buy_witness :
  let s := {| price := 108; rsi := 50; sma50 := 105; sma200 := 100;
              volume_strong := false |} in
  sma200 s < sma50 s /\ sma200 s < price s /\ rsi s < 55 /\
  Main.category (Main.generate_long_term_verdict s) = STRONG_BUY_DISCOUNT /\
  Main.target_price (Main.generate_long_term_verdict s) = 108.
Proof.
  intro s.
  assert (H1 : sma200 s < sma50 s) by reflexivity.
  assert (H2 : sma200 s < price s) by reflexivity.
  assert (H3 : rsi s < 55) by reflexivity.
  split; [exact H1|]. split; [exact H2|]. split; [exact H3|].
  destruct (generate_long_term_verdict_strong_buy s H1 H2 H3) as [Hc [Ht _]].
  split; [exact Hc|exact Ht].
Defined.

(** The end-to-end example of the specification. *)
Example generate_long_term_verdict_accumulate :
  let s := {| price := 108; rsi := 60; sma50 := 105; sma200 := 100;
              volume_strong := false |} in
  Main.category (Main.generate_long_term_verdict s) = BUY_ACCUMULATE /\
  Main.target_price (Main.generate_long_term_verdict s) = 108 /\
  target_str "RM" 108 (Main.target_price (Main.generate_long_term_verdict s))
    = BuyNow.
Proof. repeat split. Qed.

(** ** The target message *)

(** C4.  The message is "wait for the target" only under price > target
    (and then carries the discount (price - target) / price * 100), for a
    positive target and a price equal to it the message is "buy now", and
    for the target 0 it is "no entry". *)
Theorem target_str_boundary (curr : string) (price target : Q) :
  (0 < target ->
   (forall c t d,
       target_str curr price target = WaitFor c t d ->
       target < price /\ c = curr /\ t = target /\
       d = ((price - target) / price) * 100)
   /\
   (target < price ->
    target_str curr price target =
    WaitFor curr target (((price - target) / price) * 100))
   /\
   (price == target -> target_str curr price target = BuyNow))
  /\
  (target == 0 -> target_str curr price target = NoEntry).
Proof.
  unfold target_str. split.
  - intro Hpos. apply gt_true_iff in Hpos. rewrite Hpos. cbn [andb].
    split; [|split].
    + intros c t d H.
      destruct (gt price target) eqn:E; [|discriminate H].
      apply gt_true_iff in E. injection H as <- <- <-.
      repeat split. exact E.
    + intro Hgt. apply gt_true_iff in Hgt. rewrite Hgt. reflexivity.
    + intro Heq.
      assert (E : gt price target = false).
      { apply gt_false_iff. rewrite Heq. apply Qle_refl. }
      rewrite E. reflexivity.
  - intro Hzero.
    assert (E : gt target 0 = false).
    { apply gt_false_iff. rewrite Hzero. apply Qle_refl. }
    rewrite E. reflexivity.
Qed.

Lemma target_str_boundary_witness :
  0 < 5 /\ 5 == 5 /\ target_str "RM" 5 5 = BuyNow /\
  5 < 8 /\ target_str "RM" 8 5 = WaitFor "RM" 5 (((8 - 5) / 8) * 100) /\
  0 == 0 /\ target_str "RM" 8 0 = NoEntry.
Proof.
  split; [reflexivity|]. split; [reflexivity|].
  split; [exact (proj2 (proj2 (proj1 (target_str_boundary "RM" 5 5)
                                  eq_refl)) (Qeq_refl 5))|].
  split; [reflexivity|].
  split; [exact (proj1 (proj2 (proj1 (target_str_boundary "RM" 8 5)
                                  eq_refl)) eq_refl)|].
  split; [reflexivity|].
  exact (proj2 (target_str_boundary "RM" 8 0) (Qeq_refl 0)).
Defined.

(** ** Ticker metadata *)

Lemma present_truthy (entry : option PyVal) (default x : Q) :
  Spec.present entry = Some x ->
  info_get entry (PyNum default) = PyNum x /\ truthy (PyNum x) = true.
Proof.
  unfold Spec.present. destruct entry as [[|y]|]; try discriminate.
  destruct (Qeq_bool y 0) eqn:E; [discriminate|].
  intro H. injection H as <-. simpl. rewrite E. split; reflexivity.
Qed.

Lemma absent_falsy (entry : option PyVal) :
  Spec.present entry = None ->
  truthy (info_get entry (PyNum 0)) = false.
Proof.
  unfold Spec.present. destruct entry as [[|y]|]; try reflexivity.
  destruct (Qeq_bool y 0) eqn:E; [|discriminate].
  intros _. simpl. rewrite E. reflexivity.
Qed.

(** The price the code divides by, in the words of [Spec]. *)
Lemma current_price_present (info : Info) (c : Q) :
  Spec.currentOrPreviousClose info = Some c ->
  py_or (info_get (currentPrice info) (PyNum 0))
        (info_get (previousClose info) (PyNum 0)) = PyNum c /\
  truthy (PyNum c) = true.
Proof.
  unfold Spec.currentOrPreviousClose, py_or.
  destruct (Spec.present (currentPrice info)) as [c'|] eqn:E.
  - intro H. injection H as <-.
    destruct (present_truthy _ 0 _ E) as [Hg Ht].
    rewrite Hg, Ht. split; reflexivity.
  - intro H. rewrite (absent_falsy _ E).
    apply (present_truthy _ 0 _ H).
Qed.

Lemma current_price_absent (info : Info) :
  Spec.currentOrPreviousClose info = None ->
  truthy (py_or (info_get (currentPrice info) (PyNum 0))
                (info_get (previousClose info) (PyNum 0))) = false.
Proof.
  unfold Spec.currentOrPreviousClose, py_or.
  destruct (Spec.present (currentPrice info)) as [c'|] eqn:E; [discriminate|].
  intro H. rewrite (absent_falsy _ E). apply (absent_falsy _ H).
Qed.

(** The fallback on the raw yield entry. *)
Lemma yield_pct_of_fallback (info : Info) :
  Spec.dividendRatePerShare info = None \/
  Spec.currentOrPreviousClose info = None \/
  (exists c, Spec.currentOrPreviousClose info = Some c /\ c <= 0) ->
  yield_pct_of info =
  match info_get (dividendYield info) (PyNum 0) with
  | PyNone => 0
  | PyNum raw_yield => if lt raw_yield 1 then raw_yield * 100 else raw_yield
  end.
Proof.
  intro H. unfold yield_pct_of.
  destruct (info_get (dividendRate info) (PyNum 0)) as [|rate] eqn:Er;
    [reflexivity|].
  destruct (py_or (info_get (currentPrice info) (PyNum 0))
                  (info_get (previousClose info) (PyNum 0))) as [|cp] eqn:Ec;
    [reflexivity|].
  destruct H as [H|[H|[c [H Hle]]]].
  - apply absent_falsy in H. rewrite Er in H. rewrite H. reflexivity.
  - apply current_price_absent in H. rewrite Ec in H. rewrite H.
    rewrite andb_false_r. reflexivity.
  - apply current_price_present in H. destruct H as [H _].
    rewrite Ec in H. injection H as ->.
    apply gt_false_iff in Hle. rewrite Hle.
    rewrite andb_false_r. reflexivity.
Qed.

(** C8 (as amended).  When the dividend rate is present and not 0, and the
    price (the current price, or else the previous close) is present, not 0
    and positive, the yield is rate / price * 100.  Otherwise it comes from
    the raw yield entry: times 100 when that is below 1, unchanged when it
    is at least 1, and 0 when it is missing or [None]. *)
Theorem yield_pct_of_cases (info : Info) :
  (forall rate cp : Q,
      Spec.dividendRatePerShare info = Some rate ->
      Spec.currentOrPreviousClose info = Some cp ->
      0 < cp ->
      yield_pct_of info = (rate / cp) * 100)
  /\
  (Spec.dividendRatePerShare info = None \/
   Spec.currentOrPreviousClose info = None \/
   (exists c, Spec.currentOrPreviousClose info = Some c /\ c <= 0) ->
   (forall raw, dividendYield info = Some (PyNum raw) -> raw < 1 ->
                yield_pct_of info = raw * 100) /\
   (forall raw, dividendYield info = Some (PyNum raw) -> 1 <= raw ->
                yield_pct_of info = raw) /\
   (dividendYield info = None \/ dividendYield info = Some PyNone ->
    yield_pct_of info = 0)).
Proof.
  split.
  - intros rate cp Hr Hc Hpos.
    destruct (present_truthy _ 0 _ Hr) as [Hr1 Hr2].
    destruct (current_price_present _ _ Hc) as [Hc1 Hc2].
    apply gt_true_iff in Hpos.
    unfold yield_pct_of. rewrite Hr1, Hc1, Hr2, Hc2, Hpos. reflexivity.
  - intro Hfb. rewrite (yield_pct_of_fallback info Hfb).
    split; [|split].
    + intros raw Hraw Hlt. rewrite Hraw. cbn [info_get].
      apply lt_true_iff in Hlt. rewrite Hlt. reflexivity.
    + intros raw Hraw Hge. rewrite Hraw. cbn [info_get].
      apply lt_false_iff in Hge. rewrite Hge. reflexivity.
    + intros [Hraw|Hraw]; rewrite Hraw; reflexivity.
Qed.

Lemma yield_pct_of_cases_witness :
  let info := {| longName := None; shortName := Some "MAYBANK";
                 dividendRate := Some (PyNum (6 # 10));
                 currentPrice := None;
                 previousClose := Some (PyNum 10);
                 dividendYield := Some (PyNum (6 # 100)) |} in
  Spec.dividendRatePerShare info = Some (6 # 10) /\
  Spec.currentOrPreviousClose info = Some 10 /\
  0 < 10 /\
  yield_pct_of info = ((6 # 10) / 10) * 100.
Proof.
  intro info.
  split; [reflexivity|]. split; [reflexivity|]. split; [reflexivity|].
  exact (proj1 (yield_pct_of_cases info) (6 # 10) 10 eq_refl eq_refl eq_refl).
Defined.

(** C8 as stated fails for a dividend rate that is present and 0: with the
    price 10 and the raw yield 0.05 the code returns 5, not 0 / 10 * 100. *)
Lemma yield_pct_of_zero_rate_counterexample :
  dividendRate zero_rate_info = Some (PyNum 0) /\
  currentPrice zero_rate_info = Some (PyNum 10) /\
  0 < 10 /\
  yield_pct_of zero_rate_info == 5 /\
  ~ yield_pct_of zero_rate_info == (0 / 10) * 100.
Proof.
  split; [reflexivity|]. split; [reflexivity|]. split; [reflexivity|].
  split; [vm_compute; reflexivity|].
  vm_compute. discriminate.
Qed.

Lemma get_stock_info_yield `{External} (ticker : string) (info : Info) :
  ticker_info ticker = Some info ->
  snd (fst (main_get_stock_info ticker)) = yield_pct_of info /\
  snd (fst (app_get_stock_info ticker)) = yield_pct_of info.
Proof.
  intro Hinfo. unfold main_get_stock_info, app_get_stock_info.
  rewrite Hinfo. split; reflexivity.
Qed.

(** ** The driving loop *)

Section Loop.

Context `{External}.

Lemma analyze_stock_short (df : list PriceBar) :
  (List.length df < 200)%nat -> analyze_stock df = None.
Proof.
  intro Hlen. unfold analyze_stock.
  apply Nat.ltb_lt in Hlen. rewrite Hlen. reflexivity.
Qed.

Lemma analyze_stock_long (df : list PriceBar) (stats : Snapshot) :
  analyze_stock df = Some stats -> (200 <= List.length df)%nat.
Proof.
  unfold analyze_stock.
  destruct (Nat.ltb_spec (List.length df) 200); [discriminate|].
  intros _. assumption.
Qed.

Lemma analyze_ticker_short (t : string) :
  (List.length (fetch_data t) < 200)%nat -> analyze_ticker t = Ret None.
Proof.
  intro Hlen. unfold analyze_ticker.
  destruct (main_get_stock_info t) as [[n d] c].
  rewrite (analyze_stock_short _ Hlen).
  destruct (negb (empty (fetch_data t))); reflexivity.
Qed.

(** A record of the loop carries its ticker, whose series has at least
    200 bars. *)
Lemma analyze_ticker_record (t : string) (r : Stats) :
  analyze_ticker t = Ret (Some r) ->
  ticker r = t /\ (200 <= List.length (fetch_data t))%nat.
Proof.
  unfold analyze_ticker.
  destruct (main_get_stock_info t) as [[n d] c].
  destruct (negb (empty (fetch_data t))); [|discriminate].
  destruct (analyze_stock (fetch_data t)) as [stats|] eqn:E; [|discriminate].
  destruct (calculate_min_lots (price stats) t) as [l|e]; [|discriminate].
  simpl bind. intro Hr. injection Hr as <-.
  split; [reflexivity|]. exact (analyze_stock_long _ _ E).
Qed.

Lemma analyze_tickers_skip (t : string) (post : list string) :
  analyze_ticker t = Ret None ->
  forall (pre : list string) (acc : list Stats),
    analyze_tickers (pre ++ t :: post) acc = analyze_tickers (pre ++ post) acc.
Proof.
  intros Hskip pre. induction pre as [|t' pre IH]; intro acc.
  - simpl. rewrite Hskip. reflexivity.
  - simpl. destruct (analyze_ticker t') as [[r|]|e]; simpl bind.
    + apply IH.
    + apply IH.
    + reflexivity.
Qed.

Lemma analyze_tickers_In (tickers : list string) :
  forall (acc rs : list Stats) (r : Stats),
    analyze_tickers tickers acc = Ret rs ->
    In r rs ->
    In r acc \/ exists t, In t tickers /\ analyze_ticker t = Ret (Some r).
Proof.
  induction tickers as [|t rest IH]; intros acc rs r Hrun Hin.
  - simpl in Hrun. injection Hrun as <-. left. exact Hin.
  - simpl in Hrun.
    destruct (analyze_ticker t) as [[r'|]|e] eqn:E; simpl bind in Hrun.
    + destruct (IH _ _ _ Hrun Hin) as [Hacc|[t' [Ht' Hr]]].
      * apply in_app_or in Hacc. destruct Hacc as [Hacc|[<-|[]]].
        -- left. exact Hacc.
        -- right. exists t. split; [left; reflexivity|exact E].
      * right. exists t'. split; [right; exact Ht'|exact Hr].
    + destruct (IH _ _ _ Hrun Hin) as [Hacc|[t' [Ht' Hr]]].
      * left. exact Hacc.
      * right. exists t'. split; [right; exact Ht'|exact Hr].
    + discriminate Hrun.
Qed.

End Loop.

(** C6.  A series of fewer than 200 bars gives no snapshot; a ticker whose
    series it is gets no record from its turn of the loop, the run over a
    list that holds the ticker is the run over the list without it (the
    tickers after it are processed as before), and no record of any report
    set carries the ticker. *)
Theorem insufficient_history_skipped `{External} (df : list PriceBar) :
  (List.length df < 200)%nat ->
  analyze_stock df = None /\
  forall t : string,
    fetch_data t = df ->
    analyze_ticker t = Ret None /\
    (forall pre post : list string,
        portfolio (pre ++ t :: post) = portfolio (pre ++ post)) /\
    (forall (tickers : list string) (rs : list Stats) (r : Stats),
        portfolio tickers = Ret rs -> In r rs -> ticker r <> t).
Proof.
  intro Hlen. split; [exact (analyze_stock_short df Hlen)|].
  intros t Hdf. subst df.
  pose proof (analyze_ticker_short t Hlen) as Hskip.
  split; [exact Hskip|]. split.
  - intros pre post. unfold portfolio.
    apply analyze_tickers_skip. exact Hskip.
  - intros tickers rs r Hrun Hin Heq.
    destruct (analyze_tickers_In tickers [] rs r Hrun Hin)
      as [[]|[t' [_ Hr]]].
    apply analyze_ticker_record in Hr. destruct Hr as [Ht' Hlong].
    rewrite Ht' in Heq. subst t'. lia.
Qed.

Lemma insufficient_history_skipped_witness :
  (List.length (repeat flat_bar 150) < 200)%nat /\
  @analyze_stock flat_world (repeat flat_bar 150) = None /\
  @analyze_ticker flat_world "SHORT.KL" = Ret None /\
  @portfolio flat_world ["1155.KL"; "SHORT.KL"; "AAPL"] =
  @portfolio flat_world ["1155.KL"; "AAPL"].
Proof.
  assert (Hlen : (List.length (repeat flat_bar 150) < 200)%nat)
    by (vm_compute; lia).
  destruct (@insufficient_history_skipped flat_world _ Hlen) as [Hnone Ht].
  destruct (Ht "SHORT.KL" eq_refl) as [Hskip [Hrun _]].
  split; [exact Hlen|]. split; [exact Hnone|]. split; [exact Hskip|].
  exact (Hrun ["1155.KL"] ["AAPL"]).
Defined.

(** C7.  When the metadata lookup raises, both copies of [get_stock_info]
    return the ticker symbol as name, 0.0 as yield and the currency "N/A";
    the ticker is then processed as any other: once its bars give a
    snapshot, its turn of the loop appends a record with these three
    values. *)
Theorem metadata_unavailable `{External} (t : string) :
  ticker_info t = None ->
  main_get_stock_info t = (t, 0, "N/A") /\
  app_get_stock_info t = (t, 0, "N/A") /\
  forall (stats : Snapshot) (l : option LotSuggestion),
    analyze_stock (fetch_data t) = Some stats ->
    calculate_min_lots (price stats) t = Ret l ->
    analyze_ticker t =
    Ret (Some {| snapshot := stats; ticker := t; name := t;
                 currency := "N/A"; div_yield := 0;
                 analysis := Main.generate_long_term_verdict stats;
                 smart_lots := l |})
    /\
    forall (rest : list string) (acc : list Stats),
      analyze_tickers (t :: rest) acc =
      analyze_tickers rest
        (acc ++ [{| snapshot := stats; ticker := t; name := t;
                    currency := "N/A"; div_yield := 0;
                    analysis := Main.generate_long_term_verdict stats;
                    smart_lots := l |}]).
Proof.
  intro Hinfo.
  assert (Hmain : main_get_stock_info t = (t, 0, "N/A")).
  { unfold main_get_stock_info. rewrite Hinfo. reflexivity. }
  split; [exact Hmain|]. split.
  { unfold app_get_stock_info. rewrite Hinfo. reflexivity. }
  intros stats l Hstats Hlots.
  assert (Hturn : analyze_ticker t =
    Ret (Some {| snapshot := stats; ticker := t; name := t;
                 currency := "N/A"; div_yield := 0;
                 analysis := Main.generate_long_term_verdict stats;
                 smart_lots := l |})).
  { unfold analyze_ticker. rewrite Hmain, Hstats, Hlots.
    pose proof (analyze_stock_long _ _ Hstats) as Hlen.
    destruct (fetch_data t) as [|bar df]; [simpl in Hlen; lia|].
    reflexivity. }
  split; [exact Hturn|].
  intros rest acc. simpl analyze_tickers. rewrite Hturn. reflexivity.
Qed.

Lemma metadata_unavailable_witness :
  @ticker_info flat_world "1155.KL" = None /\
  @main_get_stock_info flat_world "1155.KL" = ("1155.KL", 0, "N/A") /\
  exists r : Stats,
    @analyze_ticker flat_world "1155.KL" = Ret (Some r) /\
    name r = "1155.KL" /\ currency r = "N/A" /\ div_yield r = 0.
Proof.
  destruct (@metadata_unavailable flat_world "1155.KL" eq_refl)
    as [Hmain [_ Hturn]].
  split; [reflexivity|]. split; [exact Hmain|].
  eexists. split.
  - refine (proj1 (Hturn _ _ _ _)).
    + vm_compute. reflexivity.
    + vm_compute. reflexivity.
  - split; [reflexivity|]. split; reflexivity.
Defined.

(** ** The fee threshold in closed form *)

Lemma stamp_duty_bounds (tv : Q) :
  0 < tv ->
  stamp_duty tv = 1%Z \/
  (1000 < tv /\ inject_Z (stamp_duty tv) < tv / 1000 + 1).
Proof.
  intro Hpos. rewrite stamp_duty_max.
  pose proof (Qceiling_lt (tv / 1000)) as Hc.
  destruct (Z.max_spec 1 (Qceiling (tv / 1000))) as [[Hlt ->]|[Hle ->]].
  - right.
    assert (H2 : 2 <= inject_Z (Qceiling (tv / 1000))).
    { change 2 with (inject_Z 2). rewrite <- Zle_Qle. lia. }
    unfold Z.sub in Hc. rewrite inject_Z_plus, inject_Z_opp in Hc.
    change (inject_Z 1) with 1 in Hc.
    assert (Hq : tv == tv / 1000 * 1000) by (field).
    set (q := tv / 1000) in *. set (c := inject_Z (Qceiling q)) in *.
    clearbody q c. split; lra.
  - left. reflexivity.
Qed.

Lemma div_times_100_under_one (x tv : Q) :
  0 < tv -> (x / tv * 100 < 1 <-> x * 100 < tv).
Proof.
  intro Hpos.
  assert (Hne : ~ tv == 0) by (intro E; rewrite E in Hpos; discriminate).
  assert (E : x / tv * 100 * tv == x * 100) by (field; exact Hne).
  split; intro H.
  - rewrite <- E. setoid_replace tv with (1 * tv) at 3 by ring.
    apply Qmult_lt_r; assumption.
  - apply (Qmult_lt_r _ _ tv Hpos). rewrite E. lra.
Qed.

(** The percentage is under 1 exactly when the trade value is above
    40000/97 (412.37...). *)
Lemma total_fee_under_one_iff (tv : Q) :
  0 < tv -> (total_fee tv / tv * 100 < 1 <-> 40000 < 97 * tv).
Proof.
  intro Hpos. rewrite (div_times_100_under_one _ tv Hpos).
  unfold total_fee, platform_fee, clearing_fee.
  assert (H1 : 1 <= inject_Z (stamp_duty tv)).
  { change 1 with (inject_Z 1). rewrite <- Zle_Qle.
    rewrite stamp_duty_max. lia. }
  assert (Hq : tv == tv / 1000 * 1000) by (field).
  destruct (stamp_duty_bounds tv Hpos) as [E|[Hbig Hsd]].
  - rewrite E. change (inject_Z 1) with 1. split; intro H; lra.
  - set (q := tv / 1000) in *. set (sd := inject_Z (stamp_duty tv)) in *.
    clearbody q sd. split; intro H; lra.
Qed.

Lemma feePercent_total_fee (p : Q) (l : Z) :
  Spec.feePercent p l =
  total_fee (total_value p l) / total_value p l * 100.
Proof.
  unfold Spec.feePercent, Spec.totalFee, Spec.stampDuty, Spec.clearingFee,
    Spec.platformFee, Spec.tradeValue, total_fee, clearing_fee, platform_fee.
  rewrite stamp_duty_max. reflexivity.
Qed.

Lemma feePercent_under_one_iff (p : Q) (l : Z) :
  0 < p -> (1 <= l)%Z ->
  (Spec.feePercent p l < 1 <-> 400 < 97 * p * inject_Z l).
Proof.
  intros Hp Hl. rewrite feePercent_total_fee.
  rewrite (total_fee_under_one_iff _ (total_value_pos p l Hp Hl)).
  unfold total_value. split; intro H; lra.
Qed.



(** X2.  Once a lot count is under 1%, every larger one is: the scan's
    first hit is the only place where the test changes. *)
Theorem fee_percentage_stays_under (p : Q) (l l' : Z) (f f' : Q) :
  0 < p -> (1 <= l <= l')%Z ->
  fee_percentage (total_value p l) = Ret f ->
  fee_percentage (total_value p l') = Ret f' ->
  f < 1 -> f' < 1.
Proof.
  intros Hp Hl Hf Hf' Hlt.
  rewrite (fee_percentage_spec p l Hp ltac:(lia)) in Hf.
  rewrite (fee_percentage_spec p l' Hp ltac:(lia)) in Hf'.
  injection Hf as <-. injection Hf' as <-.
  apply (feePercent_under_one_iff p l Hp ltac:(lia)) in Hlt.
  apply (feePercent_under_one_iff p l' Hp ltac:(lia)).
  assert (Hle : inject_Z l <= inject_Z l') by (rewrite <- Zle_Qle; lia).
  nra.
Qed.

Lemma fee_percentage_stays_under_witness :
  fee_percentage (total_value 1 5) = Ret (Spec.feePercent 1 5) /\
  fee_percentage (total_value 1 9) = Ret (Spec.feePercent 1 9) /\
  Spec.feePercent 1 5 < 1 /\ Spec.feePercent 1 9 < 1.
Proof.
  assert (H5 : fee_percentage (total_value 1 5) = Ret (Spec.feePercent 1 5))
    by (vm_compute; reflexivity).
  assert (H9 : fee_percentage (total_value 1 9) = Ret (Spec.feePercent 1 9))
    by (vm_compute; reflexivity).
  assert (Hf : Spec.feePercent 1 5 < 1) by (vm_compute; reflexivity).
  split; [exact H5|]. split; [exact H9|]. split; [exact Hf|].
  exact (fee_percentage_stays_under 1 5 9 _ _ eq_refl ltac:(lia) H5 H9 Hf).
Defined.



(** What the scan returns is under 1%, or is the fallback. *)
Lemma scan_lots_fee (p : Q) (Hp : 0 < p) (n : nat) :
  forall (a : Z) (r : LotSuggestion),
    (1 <= a)%Z ->
    scan_lots p (range_from a n) = Ret (Some r) ->
    fee_pct r < 1 \/ r = {| lots := 1; cost := p * 100; fee_pct := 100 |}.
Proof.
  induction n as [|n IH]; intros a r Ha Hr.
  - simpl in Hr. injection Hr as <-. right. reflexivity.
  - simpl range_from in Hr. rewrite scan_lots_cons in Hr by assumption.
    destruct (lt (Spec.feePercent p a) 1) eqn:E.
    + injection Hr as <-. left. simpl. apply lt_true_iff. exact E.
    + apply (IH (a + 1)%Z); [lia|exact Hr].
Qed.

(** X4.  A returned fee of 1% or more tells the fallback from a found lot
    count: every suggestion for a positive price is under 1%, or is one lot
    at the price of one lot with the fee 100. *)
Theorem calculate_min_lots_fee_signal (p : Q) (ticker : string)
    (r : LotSuggestion) :
  0 < p ->
  calculate_min_lots p ticker = Ret (Some r) ->
  fee_pct r < 1 \/ r = {| lots := 1; cost := p * 100; fee_pct := 100 |}.
Proof.
  intros Hp. unfold calculate_min_lots.
  destruct (negb (endswith ticker ".KL")); [discriminate|].
  apply (scan_lots_fee p Hp 99 1 r). lia.
Qed.

Lemma calculate_min_lots_fee_signal_witness :
  0 < 1 # 100 /\
  calculate_min_lots (1 # 100) "1155.KL" =
  Ret (Some {| lots := 1; cost := (1 # 100) * 100; fee_pct := 100 |}) /\
  (100 < 1 \/
   {| lots := 1; cost := (1 # 100) * 100; fee_pct := 100 |} =
   {| lots := 1; cost := (1 # 100) * 100; fee_pct := 100 |}).
Proof.
  assert (Hr : calculate_min_lots (1 # 100) "1155.KL" =
    Ret (Some {| lots := 1; cost := (1 # 100) * 100; fee_pct := 100 |}))
    by (vm_compute; reflexivity).
  split; [reflexivity|]. split; [exact Hr|].
  exact (calculate_min_lots_fee_signal (1 # 100) "1155.KL" _ eq_refl Hr).
Defined.

(** ** Markets *)

Lemma scan_lots_not_none (p : Q) (rng : list Z) :
  scan_lots p rng <> Ret None.
Proof.
  induction rng as [|l rest IH]; simpl; [discriminate|].
  destruct (fee_percentage (total_value p l)) as [f|e]; simpl bind;
    [|discriminate].
  destruct (lt f 1); [discriminate|exact IH].
Qed.


(** ** The verdict engine, branch by branch *)

(** The copy of app.py builds its record from the values of main.py's. *)
Lemma app_verdict_of_main (stock_data : Snapshot) :
  App.generate_long_term_verdict stock_data =
  {| App.category := Main.category (Main.generate_long_term_verdict stock_data);
     App.target_price :=
       Main.target_price (Main.generate_long_term_verdict stock_data) |}.
Proof.
  destruct stock_data as [p r s50 s200 vol].
  unfold App.generate_long_term_verdict, Main.generate_long_term_verdict.
  cbn [price rsi sma50 sma200 volume_strong].
  destruct (gt s50 s200), (gt p s200); cbn [andb negb]; try reflexivity.
  destruct (lt r 55); [reflexivity|].
  destruct (gt r 70); [reflexivity|].
  destruct vol; reflexivity.
Qed.

(** The decision table of main.py's copy: every snapshot falls in the
    branch its comparisons select, and the branch fixes the category and
    the target price. *)
Lemma verdict_table (stock_data : Snapshot) :
  let v := Main.generate_long_term_verdict stock_data in
  (sma50 stock_data <= sma200 stock_data /\
   Main.category v = AVOID_SELL /\ Main.target_price v = 0)
  \/
  (sma200 stock_data < sma50 stock_data /\
   price stock_data <= sma200 stock_data /\
   Main.category v = CAUTION_TREND_TESTING /\
   Main.target_price v = sma200 stock_data)
  \/
  (sma200 stock_data < sma50 stock_data /\
   sma200 stock_data < price stock_data /\
   rsi stock_data < 55 /\
   Main.category v = STRONG_BUY_DISCOUNT /\
   Main.target_price v = price stock_data)
  \/
  (sma200 stock_data < sma50 stock_data /\
   sma200 stock_data < price stock_data /\
   70 < rsi stock_data /\
   Main.category v = HOLD_OVERHEATED /\
   Main.target_price v = sma50 stock_data)
  \/
  (sma200 stock_data < sma50 stock_data /\
   sma200 stock_data < price stock_data /\
   55 <= rsi stock_data <= 70 /\
   Main.category v =
     (if volume_strong stock_data then BUY_HIGH_MOMENTUM
      else BUY_ACCUMULATE) /\
   Main.target_price v = price stock_data).
Proof.
  destruct stock_data as [p r s50 s200 vol].
  unfold Main.generate_long_term_verdict.
  cbn [price rsi sma50 sma200 volume_strong].
  destruct (gt s50 s200) eqn:Ebull; cbn [andb negb].
  - apply gt_true_iff in Ebull.
    destruct (gt p s200) eqn:Ehealthy.
    + apply gt_true_iff in Ehealthy.
      destruct (lt r 55) eqn:Elow.
      * apply lt_true_iff in Elow.
        right. right. left. repeat split; assumption.
      * apply lt_false_iff in Elow.
        destruct (gt r 70) eqn:Ehigh.
        -- apply gt_true_iff in Ehigh.
           right. right. right. left. repeat split; assumption.
        -- apply gt_false_iff in Ehigh.
           right. right. right. right.
           destruct vol; repeat split; assumption.
    + apply gt_false_iff in Ehealthy.
      right. left. repeat split; assumption.
  - apply gt_false_iff in Ebull.
    left. repeat split; assumption.
Qed.

(** X6.  The branches of a bull market the other statements leave out, in
    both copies.  With sma50 > sma200: a price above sma200 and rsi > 70
    give HOLD / WAIT (Overheated) with the 50-bar average as target; a
    price above sma200 and 55 <= rsi <= 70 give BUY (High Momentum) on
    strong volume and BUY / ACCUMULATE otherwise, with the price as target;
    a price at or below sma200 gives CAUTION (Trend Testing) with the
    200-bar average as target. *)
Theorem generate_long_term_verdict_bull_branches (stock_data : Snapshot) :
  sma200 stock_data < sma50 stock_data ->
  let m := Main.generate_long_term_verdict stock_data in
  let a := App.generate_long_term_verdict stock_data in
  (sma200 stock_data < price stock_data -> 70 < rsi stock_data ->
   Main.category m = HOLD_OVERHEATED /\
   Main.target_price m = sma50 stock_data /\
   App.category a = HOLD_OVERHEATED /\
   App.target_price a = sma50 stock_data)
  /\
  (sma200 stock_data < price stock_data -> 55 <= rsi stock_data <= 70 ->
   Main.category m =
     (if volume_strong stock_data then BUY_HIGH_MOMENTUM
      else BUY_ACCUMULATE) /\
   Main.target_price m = price stock_data /\
   App.category a =
     (if volume_strong stock_data then BUY_HIGH_MOMENTUM
      else BUY_ACCUMULATE) /\
   App.target_price a = price stock_data)
  /\
  (price stock_data <= sma200 stock_data ->
   Main.category m = CAUTION_TREND_TESTING /\
   Main.target_price m = sma200 stock_data /\
   App.category a = CAUTION_TREND_TESTING /\
   App.target_price a = sma200 stock_data).
Proof.
  intros Hbull m a. subst a. rewrite app_verdict_of_main.
  cbn [App.category App.target_price]. subst m.
  destruct (verdict_table stock_data)
    as [[Hb _]|[[_ [Hh [Hc Ht]]]|[[_ [Hh [Hr [Hc Ht]]]]|
        [[_ [Hh [Hr [Hc Ht]]]]|[_ [Hh [Hr [Hc Ht]]]]]]]].
  - exfalso. apply (Qlt_not_le _ _ Hbull). exact Hb.
  - rewrite Hc, Ht. split; [|split].
    + intros H1 _. exfalso. apply (Qlt_not_le _ _ H1). exact Hh.
    + intros H1 _. exfalso. apply (Qlt_not_le _ _ H1). exact Hh.
    + intros _. repeat split.
  - split; [|split].
    + intros _ H2. exfalso. apply (Qlt_irrefl 70). lra.
    + intros _ [H2 _]. exfalso. apply (Qlt_not_le _ _ Hr). exact H2.
    + intros H1. exfalso. apply (Qlt_not_le _ _ Hh). exact H1.
  - rewrite Hc, Ht. split; [|split].
    + intros _ _. repeat split.
    + intros _ [_ H2]. exfalso. apply (Qlt_not_le _ _ Hr). exact H2.
    + intros H1. exfalso. apply (Qlt_not_le _ _ Hh). exact H1.
  - rewrite Hc, Ht. split; [|split].
    + intros _ H2. exfalso. apply (Qlt_not_le _ _ H2). apply Hr.
    + intros _ _. repeat split.
    + intros H1. exfalso. apply (Qlt_not_le _ _ Hh). exact H1.
Qed.

Lemma generate_long_term_verdict_bull_branches_witness :
  let s := {| price := 10; rsi := 75; sma50 := 9; sma200 := 8;
              volume_strong := false |} in
  sma200 s < sma50 s /\ sma200 s < price s /\ 70 < rsi s /\
  Main.category (Main.generate_long_term_verdict s) = HOLD_OVERHEATED /\
  Main.target_price (Main.generate_long_term_verdict s) = 9.
Proof.
  intro s. split; [reflexivity|]. split; [reflexivity|].
  split; [reflexivity|].
  destruct (proj1 (generate_long_term_verdict_bull_branches s eq_refl)
              eq_refl eq_refl) as [Hc [Ht _]].
  split; [exact Hc|exact Ht].
Defined.

(** X7.  The category a verdict carries is one of the six labels, in both
    copies: the empty string the code starts from is always overwritten. *)
Theorem generate_long_term_verdict_labelled (stock_data : Snapshot) :
  let labels := [STRONG_BUY_DISCOUNT; HOLD_OVERHEATED; BUY_HIGH_MOMENTUM;
                 BUY_ACCUMULATE; AVOID_SELL; CAUTION_TREND_TESTING] in
  In (Main.category (Main.generate_long_term_verdict stock_data)) labels /\
  In (App.category (App.generate_long_term_verdict stock_data)) labels /\
  Main.category (Main.generate_long_term_verdict stock_data) <> "" /\
  App.category (App.generate_long_term_verdict stock_data) <> "".
Proof.
  intro labels. rewrite app_verdict_of_main. cbn [App.category].
  assert (H : In (Main.category (Main.generate_long_term_verdict stock_data))
                 labels).
  { destruct (verdict_table stock_data)
      as [[_ [-> _]]|[[_ [_ [-> _]]]|[[_ [_ [_ [-> _]]]]|
          [[_ [_ [_ [-> _]]]]|[_ [_ [_ [-> _]]]]]]]];
      unfold labels; simpl; auto 7.
    destruct (volume_strong stock_data); auto 7. }
  assert (Hne : Main.category (Main.generate_long_term_verdict stock_data)
                <> "").
  { intro E. rewrite E in H. unfold labels in H. simpl in H.
    repeat (destruct H as [H|H]; [discriminate H|]). exact H. }
  repeat split; assumption.
Qed.

(** X8.  A verdict is AVOID / SELL exactly in a bear market (sma50 <=
    sma200), in both copies. *)
Theorem generate_long_term_verdict_avoid_iff (stock_data : Snapshot) :
  (Main.category (Main.generate_long_term_verdict stock_data) = AVOID_SELL
   <-> sma50 stock_data <= sma200 stock_data) /\
  (App.category (App.generate_long_term_verdict stock_data) = AVOID_SELL
   <-> sma50 stock_data <= sma200 stock_data).
Proof.
  rewrite app_verdict_of_main. cbn [App.category].
  assert (H : Main.category (Main.generate_long_term_verdict stock_data)
              = AVOID_SELL <-> sma50 stock_data <= sma200 stock_data).
  { destruct (verdict_table stock_data)
      as [[Hb [Hc _]]|[[Hb [_ [Hc _]]]|[[Hb [_ [_ [Hc _]]]]|
          [[Hb [_ [_ [Hc _]]]]|[Hb [_ [_ [Hc _]]]]]]]];
      rewrite Hc; split; intro H;
      try reflexivity; try exact Hb; try discriminate H;
      try (exfalso; apply (Qlt_not_le _ _ Hb); exact H).
    destruct (volume_strong stock_data); discriminate H. }
  split; exact H.
Qed.

(** X9.  With a positive price and a positive 200-bar average, the target
    price is positive exactly in a bull market (sma50 > sma200): the target
    0 is the mark of AVOID / SELL. *)
Theorem target_price_positive_iff_bull (stock_data : Snapshot) :
  0 < price stock_data ->
  0 < sma200 stock_data ->
  (0 < Main.target_price (Main.generate_long_term_verdict stock_data)
   <-> sma200 stock_data < sma50 stock_data).
Proof.
  intros Hprice Hsma.
  destruct (verdict_table stock_data)
    as [[Hb [_ Ht]]|[[Hb [_ [_ Ht]]]|[[Hb [_ [_ [_ Ht]]]]|
        [[Hb [_ [_ [_ Ht]]]]|[Hb [_ [_ [_ Ht]]]]]]]];
    rewrite Ht; split; intro H; try exact Hb; try assumption.
  - discriminate H.
  - exfalso. apply (Qlt_not_le _ _ H). exact Hb.
  - apply (Qlt_trans _ _ _ Hsma Hb).
Qed.

Lemma target_price_positive_iff_bull_witness :
  let s := {| price := 10; rsi := 75; sma50 := 9; sma200 := 8;
              volume_strong := false |} in
  0 < price s /\ 0 < sma200 s /\
  (0 < Main.target_price (Main.generate_long_term_verdict s)
   <-> sma200 s < sma50 s).
Proof.
  intro s. split; [reflexivity|]. split; [reflexivity|].
  exact (target_price_positive_iff_bull s eq_refl eq_refl).
Defined.

(** ** The target message of a verdict *)

Lemma target_str_wait (curr : string) (price target : Q) (c : string)
    (t d : Q) :
  target_str curr price target = WaitFor c t d ->
  0 < target /\ target < price /\ c = curr /\ t = target /\
  d = ((price - target) / price) * 100.
Proof.
  unfold target_str.
  destruct (gt target 0) eqn:Epos; cbn [andb].
  - destruct (gt price target) eqn:Egt; [|discriminate].
    intro H. injection H as <- <- <-.
    apply gt_true_iff in Epos. apply gt_true_iff in Egt.
    repeat split; assumption.
  - discriminate.
Qed.

(** X10.  The discount of a "wait for the target" message lies strictly
    between 0 and 100 percent. *)
Theorem target_str_discount_bounds (curr : string) (price target : Q)
    (c : string) (t d : Q) :
  target_str curr price target = WaitFor c t d ->
  0 < d /\ d < 100.
Proof.
  intro H. apply target_str_wait in H.
  destruct H as [Hpos [Hlt [_ [_ ->]]]].
  assert (Hprice : 0 < price) by lra.
  assert (Hne : ~ price == 0) by lra.
  assert (E : (price - target) / price * price == price - target)
    by (field; exact Hne).
  set (q := (price - target) / price) in *. clearbody q.
  split.
  - assert (0 < q); [|lra].
    destruct (Qlt_le_dec 0 q) as [Hq|Hq]; [exact Hq|]. nra.
  - assert (q < 1); [|lra].
    destruct (Qlt_le_dec q 1) as [Hq|Hq]; [exact Hq|]. nra.
Qed.

Lemma target_str_discount_bounds_witness :
  target_str "RM" 10 9 = WaitFor "RM" 9 (((10 - 9) / 10) * 100) /\
  0 < ((10 - 9) / 10) * 100 /\ ((10 - 9) / 10) * 100 < 100.
Proof.
  assert (H : target_str "RM" 10 9 = WaitFor "RM" 9 (((10 - 9) / 10) * 100))
    by reflexivity.
  split; [exact H|].
  exact (target_str_discount_bounds "RM" 10 9 _ _ _ H).
Defined.

(** X11.  Only an overheated verdict can tell to wait: when the message of
    a verdict is "wait for the target", the category is HOLD / WAIT
    (Overheated), the target is the 50-bar average, and the price is above
    it.  Every other verdict with a positive target says "buy now". *)
Theorem wait_only_when_overheated (curr : string) (stock_data : Snapshot) :
  let v := Main.generate_long_term_verdict stock_data in
  (forall (c : string) (t d : Q),
      target_str curr (price stock_data) (Main.target_price v)
      = WaitFor c t d ->
      Main.category v = HOLD_OVERHEATED /\
      t = sma50 stock_data /\
      sma50 stock_data < price stock_data)
  /\
  (Main.category v <> HOLD_OVERHEATED ->
   0 < Main.target_price v ->
   target_str curr (price stock_data) (Main.target_price v) = BuyNow).
Proof.
  intro v.
  assert (Hwait : forall c t d,
    target_str curr (price stock_data) (Main.target_price v) = WaitFor c t d ->
    Main.category v = HOLD_OVERHEATED /\ t = sma50 stock_data /\
    sma50 stock_data < price stock_data).
  { intros c t d H. apply target_str_wait in H.
    destruct H as [Hpos [Hlt [_ [-> _]]]]. subst v.
    destruct (verdict_table stock_data)
      as [[Hb [_ Ht]]|[[Hb [Hh [_ Ht]]]|[[Hb [_ [_ [_ Ht]]]]|
          [[Hb [_ [_ [Hc Ht]]]]|[Hb [_ [_ [_ Ht]]]]]]]];
      rewrite Ht in Hpos, Hlt |- *.
    - discriminate Hpos.
    - exfalso. apply (Qlt_not_le _ _ Hlt). exact Hh.
    - exfalso. apply (Qlt_irrefl _ Hlt).
    - repeat split; assumption.
    - exfalso. apply (Qlt_irrefl _ Hlt). }
  split; [exact Hwait|].
  intros Hcat Hpos.
  destruct (target_str curr (price stock_data) (Main.target_price v))
    as [c t d| |] eqn:E.
  - exfalso. apply Hcat. exact (proj1 (Hwait c t d eq_refl)).
  - reflexivity.
  - exfalso. unfold target_str in E. apply gt_true_iff in Hpos.
    rewrite Hpos in E. cbn [andb] in E.
    destruct (gt (price stock_data) (Main.target_price v)); discriminate E.
Qed.

Lemma wait_only_when_overheated_witness :
  let s := {| price := 10; rsi := 75; sma50 := 9; sma200 := 8;
              volume_strong := false |} in
  target_str "RM" (price s)
    (Main.target_price (Main.generate_long_term_verdict s))
  = WaitFor "RM" 9 (((10 - 9) / 10) * 100) /\
  Main.category (Main.generate_long_term_verdict s) = HOLD_OVERHEATED.
Proof.
  intro s.
  assert (H : target_str "RM" (price s)
                (Main.target_price (Main.generate_long_term_verdict s))
              = WaitFor "RM" 9 (((10 - 9) / 10) * 100)) by reflexivity.
  split; [exact H|].
  exact (proj1 (proj1 (wait_only_when_overheated "RM" s) _ _ _ H)).
Defined.

(** ** The two copies of [get_stock_info] *)

Lemma str_truthy_iff (a : option string) :
  str_truthy a = true <-> exists s, a = Some s /\ s <> "".
Proof.
  destruct a as [s|]; simpl.
  - destruct (String.eqb_spec s ""); simpl; split.
    + discriminate.
    + intros [s' [H Hne]]. injection H as <-. contradiction.
    + intros _. exists s. split; [reflexivity|assumption].
    + reflexivity.
  - split; [discriminate|]. intros [s [H _]]. discriminate H.
Qed.

Lemma str_or_falsy (a : option string) (b : string) :
  str_truthy a = false -> str_or a b = b.
Proof.
  intro H. unfold str_or. destruct a as [s|]; [|reflexivity].
  rewrite H. reflexivity.
Qed.

Lemma str_or_truthy (s b : string) :
  s <> "" -> str_or (Some s) b = s.
Proof.
  intro H. unfold str_or, str_truthy.
  destruct (String.eqb_spec s ""); [contradiction|reflexivity].
Qed.

Lemma joined_name_longer (l s : string) : l ++ " - " ++ s <> s.
Proof.
  intro E. apply (f_equal String.length) in E.
  rewrite !length_append in E. simpl in E. lia.
Qed.

(** X12.  The two copies of [get_stock_info] return the same yield and the
    same currency for every ticker.  Their names differ exactly when the
    lookup succeeds with a long and a short name that are both non-empty
    and different: main.py then shows "long - short", app.py the short
    name. *)
Theorem get_stock_info_copies `{External} (t : string) :
  snd (main_get_stock_info t) = snd (app_get_stock_info t) /\
  snd (fst (main_get_stock_info t)) = snd (fst (app_get_stock_info t)) /\
  (fst (fst (main_get_stock_info t)) <> fst (fst (app_get_stock_info t))
   <->
   exists (info : Info) (l s : string),
     ticker_info t = Some info /\
     longName info = Some l /\ shortName info = Some s /\
     l <> "" /\ s <> "" /\ l <> s /\
     fst (fst (main_get_stock_info t)) = l ++ " - " ++ s /\
     fst (fst (app_get_stock_info t)) = s).
Proof.
  unfold main_get_stock_info, app_get_stock_info.
  destruct (ticker_info t) as [info|]; cbn [fst snd].
  2:{ split; [reflexivity|]. split; [reflexivity|].
      split; [intro H0; exfalso; apply H0; reflexivity|].
      intros [info [l [s [Hi _]]]]. discriminate Hi. }
  split; [reflexivity|]. split; [reflexivity|].
  destruct (str_truthy (longName info)) eqn:El.
  - destruct (str_truthy (shortName info)) eqn:Es.
    + apply str_truthy_iff in El. destruct El as [l [El Hl]].
      apply str_truthy_iff in Es. destruct Es as [s [Es Hs]].
      rewrite El, Es. cbn [andb str_ne str_of].
      rewrite !(str_or_truthy _ _ Hl), !(str_or_truthy _ _ Hs).
      destruct (String.eqb_spec l s) as [Heq|Hne]; cbn [negb].
      * split; [intro H0; exfalso; apply H0; exact Heq|].
        intros [info' [l' [s' [Hi [Hl' [Hs' [_ [_ [Hne _]]]]]]]]].
        injection Hi as <-. rewrite El in Hl'. rewrite Es in Hs'.
        injection Hl' as <-. injection Hs' as <-. contradiction.
      * split; [|intros _; apply joined_name_longer].
        intros _. exists info, l, s. repeat split; assumption.
    + cbn [andb]. rewrite (str_or_falsy _ _ Es).
      rewrite (str_or_falsy (shortName info) _ Es).
      split; [intro H0; exfalso; apply H0; reflexivity|].
      intros [info' [l' [s' [Hi [_ [Hs' [_ [Hs [_ _]]]]]]]]].
      injection Hi as <-.
      assert (Ht : str_truthy (shortName info) = true)
        by (apply str_truthy_iff; exists s'; split; assumption).
      congruence.
  - cbn [andb]. rewrite (str_or_falsy _ _ El).
    rewrite (str_or_falsy (longName info) _ El).
    split; [intro H0; exfalso; apply H0; reflexivity|].
    intros [info' [l' [s' [Hi [Hl' [_ [Hl [_ _]]]]]]]].
    injection Hi as <-.
    assert (Ht : str_truthy (longName info) = true)
      by (apply str_truthy_iff; exists l'; split; assumption).
    congruence.
Qed.

Lemma str_or_nonempty (a : option string) (b : string) :
  b <> "" -> str_or a b <> "".
Proof.
  intro Hb. unfold str_or. destruct a as [s|]; [|exact Hb].
  unfold str_truthy. destruct (String.eqb_spec s ""); [exact Hb|assumption].
Qed.

(** X13.  The name shown for a ticker is never empty, unless the ticker
    symbol itself is: both copies fall back on the symbol when the names
    are missing or empty. *)
Theorem get_stock_info_name_nonempty `{External} (t : string) :
  t <> "" ->
  fst (fst (main_get_stock_info t)) <> "" /\
  fst (fst (app_get_stock_info t)) <> "".
Proof.
  intro Ht. unfold main_get_stock_info, app_get_stock_info.
  destruct (ticker_info t) as [info|]; cbn [fst snd];
    [|split; exact Ht].
  split.
  - destruct (str_truthy (longName info) && str_truthy (shortName info)
              && str_ne (longName info) (shortName info)).
    + intro E. apply (f_equal String.length) in E.
      rewrite !length_append in E. simpl in E. lia.
    + apply str_or_nonempty. apply str_or_nonempty. exact Ht.
  - apply str_or_nonempty. apply str_or_nonempty. exact Ht.
Qed.

Lemma get_stock_info_name_nonempty_witness :
  "1155.KL" <> "" /\
  fst (fst (@main_get_stock_info rising_world "1155.KL"))
  = "Malayan Banking Berhad - MAYBANK" /\
  fst (fst (@main_get_stock_info rising_world "1155.KL")) <> "" /\
  fst (fst (@app_get_stock_info rising_world "1155.KL")) <> "".
Proof.
  assert (Ht : "1155.KL" <> "") by discriminate.
  split; [exact Ht|]. split; [reflexivity|].
  exact (@get_stock_info_name_nonempty rising_world "1155.KL" Ht).
Defined.

(** ** The report set *)

Section Report.

Context `{External}.

Lemma analyze_ticker_none (t : string) :
  analyze_ticker t = Ret None -> (List.length (fetch_data t) < 200)%nat.
Proof.
  unfold analyze_ticker.
  destruct (main_get_stock_info t) as [[n d] c].
  destruct (fetch_data t) as [|bar df] eqn:Edf; [simpl; lia|].
  cbn [empty negb].
  destruct (analyze_stock (bar :: df)) as [stats|] eqn:E.
  - destruct (calculate_min_lots (price stats) t); discriminate.
  - intros _. unfold analyze_stock in E.
    destruct (Nat.ltb_spec (List.length (bar :: df)) 200);
      [assumption|discriminate].
Qed.

Lemma analyze_ticker_fields (t : string) (r : Stats) :
  analyze_ticker t = Ret (Some r) ->
  ticker r = t /\
  analyze_stock (fetch_data t) = Some (snapshot r) /\
  main_get_stock_info t = (name r, div_yield r, currency r) /\
  analysis r = Main.generate_long_term_verdict (snapshot r) /\
  calculate_min_lots (price (snapshot r)) t = Ret (smart_lots r).
Proof.
  unfold analyze_ticker.
  destruct (main_get_stock_info t) as [[n d] c].
  destruct (negb (empty (fetch_data t))); [|discriminate].
  destruct (analyze_stock (fetch_data t)) as [stats|]; [|discriminate].
  destruct (calculate_min_lots (price stats) t) as [l|e] eqn:El;
    [|discriminate].
  simpl bind. intro Hr. injection Hr as <-. cbn.
  repeat split; try reflexivity. exact El.
Qed.

Lemma analyze_tickers_order (tickers : list string) :
  forall acc rs : list Stats,
    analyze_tickers tickers acc = Ret rs ->
    map ticker rs =
    (map ticker acc ++
     filter (fun t => (200 <=? List.length (fetch_data t))%nat) tickers)%list.
Proof.
  induction tickers as [|t rest IH]; intros acc rs Hrun.
  - simpl in Hrun. injection Hrun as <-. simpl. rewrite app_nil_r.
    reflexivity.
  - simpl in Hrun. cbn [filter].
    destruct (analyze_ticker t) as [[r|]|e] eqn:E; simpl bind in Hrun.
    + destruct (analyze_ticker_record t r E) as [Ht Hlen].
      apply Nat.leb_le in Hlen. rewrite Hlen.
      rewrite (IH _ _ Hrun). rewrite map_app. simpl map.
      rewrite Ht. rewrite <- app_assoc. reflexivity.
    + apply analyze_ticker_none in E.
      assert (Hlen : (200 <=? List.length (fetch_data t))%nat = false)
        by (apply Nat.leb_gt; exact E).
      rewrite Hlen. exact (IH _ _ Hrun).
    + discriminate Hrun.
Qed.

Lemma calculate_min_lots_returns (p : Q) (t : string) :
  (endswith t ".KL" = true -> 0 < p) ->
  exists l, calculate_min_lots p t = Ret l.
Proof.
  intro Hp. unfold calculate_min_lots.
  destruct (endswith t ".KL"); simpl negb; cbv iota.
  - destruct (scan_lots_result p (Hp eq_refl) 99 1) as [r [Hr _]]; [lia|].
    exists (Some r). exact Hr.
  - exists None. reflexivity.
Qed.

Lemma analyze_ticker_returns (t : string) :
  (forall stats,
      analyze_stock (fetch_data t) = Some stats ->
      endswith t ".KL" = true -> 0 < price stats) ->
  exists r, analyze_ticker t = Ret r.
Proof.
  intro Hpos. unfold analyze_ticker.
  destruct (main_get_stock_info t) as [[n d] c].
  destruct (negb (empty (fetch_data t))); [|eexists; reflexivity].
  destruct (analyze_stock (fetch_data t)) as [stats|];
    [|eexists; reflexivity].
  destruct (calculate_min_lots_returns (price stats) t (Hpos stats eq_refl))
    as [l Hl].
  rewrite Hl. simpl bind. eexists. reflexivity.
Qed.

Lemma analyze_tickers_returns (tickers : list string) :
  (forall t stats,
      In t tickers ->
      analyze_stock (fetch_data t) = Some stats ->
      endswith t ".KL" = true -> 0 < price stats) ->
  forall acc, exists rs, analyze_tickers tickers acc = Ret rs.
Proof.
  induction tickers as [|t rest IH]; intros Hpos acc.
  - exists acc. reflexivity.
  - simpl analyze_tickers.
    destruct (analyze_ticker_returns t) as [r Hr].
    { intros stats. apply Hpos. left. reflexivity. }
    rewrite Hr. simpl bind.
    assert (Hrest : forall t' stats, In t' rest ->
              analyze_stock (fetch_data t') = Some stats ->
              endswith t' ".KL" = true -> 0 < price stats).
    { intros t' stats Hin. apply Hpos. right. exact Hin. }
    destruct r as [r|]; apply (IH Hrest).
Qed.

End Report.

(** X14.  The report set follows the configured list: its tickers are, in
    the order of the list and with its repetitions, those whose series has
    at least 200 bars. *)
Theorem portfolio_order `{External} (tickers : list string)
    (rs : list Stats) :
  portfolio tickers = Ret rs ->
  map ticker rs =
  filter (fun t => (200 <=? List.length (fetch_data t))%nat) tickers.
Proof.
  intro Hrun. exact (analyze_tickers_order tickers [] rs Hrun).
Qed.

(** X15.  Every record of the report set is built from its own ticker: its
    snapshot is that of the ticker's bars, its name, yield and currency are
    the ticker's metadata, its verdict is the verdict of its snapshot, and
    its lot suggestion is the lot sizer's answer for its price. *)
Theorem portfolio_records `{External} (tickers : list string)
    (rs : list Stats) (r : Stats) :
  portfolio tickers = Ret rs ->
  In r rs ->
  In (ticker r) tickers /\
  analyze_stock (fetch_data (ticker r)) = Some (snapshot r) /\
  main_get_stock_info (ticker r) = (name r, div_yield r, currency r) /\
  analysis r = Main.generate_long_term_verdict (snapshot r) /\
  calculate_min_lots (price (snapshot r)) (ticker r) = Ret (smart_lots r).
Proof.
  intros Hrun Hin.
  destruct (analyze_tickers_In tickers [] rs r Hrun Hin) as [[]|[t [Ht Hr]]].
  destruct (analyze_ticker_fields t r Hr) as [Heq Hfields].
  rewrite Heq. split; [exact Ht|exact Hfields].
Qed.

(** X16.  A run returns its report set whenever every [.KL] ticker with a
    snapshot has a positive price; tickers without data, with a short
    history or without metadata never stop it. *)
Theorem portfolio_completes `{External} (tickers : list string) :
  (forall t stats,
      In t tickers ->
      analyze_stock (fetch_data t) = Some stats ->
      endswith t ".KL" = true -> 0 < price stats) ->
  exists rs, portfolio tickers = Ret rs.
Proof.
  intro Hpos. exact (analyze_tickers_returns tickers Hpos []).
Qed.

Lemma portfolio_order_witness :
  exists rs : list Stats,
    @portfolio flat_world ["1155.KL"; "SHORT.KL"; "AAPL"; "1155.KL"] = Ret rs
    /\ map ticker rs = ["1155.KL"; "AAPL"; "1155.KL"].
Proof.
  destruct (@portfolio flat_world ["1155.KL"; "SHORT.KL"; "AAPL"; "1155.KL"])
    as [rs|e] eqn:Hrun.
  - exists rs. split; [reflexivity|].
    rewrite (@portfolio_order flat_world _ rs Hrun).
    vm_compute. reflexivity.
  - vm_compute in Hrun. discriminate Hrun.
Defined.

Lemma portfolio_records_witness :
  exists r : Stats,
    @portfolio flat_world ["SHORT.KL"; "1155.KL"] = Ret [r] /\
    ticker r = "1155.KL" /\
    analysis r = Main.generate_long_term_verdict (snapshot r) /\
    calculate_min_lots (price (snapshot r)) (ticker r) = Ret (smart_lots r).
Proof.
  destruct (@portfolio flat_world ["SHORT.KL"; "1155.KL"]) as [rs|e] eqn:Hrun.
  - pose proof Hrun as Heval. vm_compute in Heval.
    injection Heval as Heval.
    destruct rs as [|r [|r' rs]]; try discriminate Heval.
    exists r. split; [reflexivity|].
    split; [injection Heval as <-; reflexivity|].
    destruct (@portfolio_records flat_world _ _ r Hrun
                (or_introl eq_refl)) as [_ [_ [_ [Ha Hl]]]].
    split; [exact Ha|exact Hl].
  - vm_compute in Hrun. discriminate Hrun.
Defined.

Lemma portfolio_completes_witness :
  exists rs : list Stats,
    @portfolio flat_world ["1155.KL"; "SHORT.KL"; "0700.HK"] = Ret rs.
Proof.
  apply (@portfolio_completes flat_world).
  intros t stats Hin Hstats _.
  destruct Hin as [<-|[<-|[<-|[]]]];
    vm_compute in Hstats; try discriminate Hstats;
    injection Hstats as <-; reflexivity.
Defined.

(** ** What the two programs show *)

Lemma trend_icon_death (a b : Q) : trend_icon a b = "💀 DEATH" <-> a <= b.
Proof.
  unfold trend_icon. destruct (gt a b) eqn:E.
  - apply gt_true_iff in E. split; [discriminate|].
    intro H. exfalso. apply (Qlt_not_le _ _ E). exact H.
  - apply gt_false_iff in E. split; [intros _; exact E|reflexivity].
Qed.

Lemma suggestion_none_iff (l : option LotSuggestion) (curr : string)
    (p t : Q) :
  suggestion l curr p t = None <-> target_str curr p t = NoEntry.
Proof.
  unfold suggestion, target_str.
  destruct l as [l|]; destruct (gt t 0); cbn [andb];
    try destruct (gt p t); split; intro H0;
    try reflexivity; try discriminate H0.
Qed.

Lemma calculate_min_lots_some_KL (p : Q) (t : string) (l : LotSuggestion) :
  calculate_min_lots p t = Ret (Some l) -> endswith t ".KL" = true.
Proof.
  unfold calculate_min_lots.
  destruct (endswith t ".KL"); [reflexivity|discriminate].
Qed.

Lemma calculate_min_lots_none_not_KL (p : Q) (t : string) :
  calculate_min_lots p t = Ret None -> endswith t ".KL" = false.
Proof.
  unfold calculate_min_lots.
  destruct (endswith t ".KL"); [|reflexivity].
  simpl negb. cbv iota. intro H0. exfalso.
  exact (scan_lots_not_none _ _ H0).
Qed.

Section Entries.

Context `{External}.

(** An entry of main.py's report is the rendering of a record of the loop. *)
Lemma main_report_In (tickers : list string) (es : list Shown) (e : Shown) :
  main_report tickers = Ret es ->
  In e es ->
  exists r : Stats,
    e = report_item r /\
    analysis r = Main.generate_long_term_verdict (snapshot r) /\
    calculate_min_lots (price (snapshot r)) (ticker r) = Ret (smart_lots r).
Proof.
  unfold main_report.
  destruct (portfolio tickers) as [rs|ex] eqn:Hrun; [|discriminate].
  simpl bind. intro Hes. injection Hes as <-.
  intro Hin. apply in_map_iff in Hin. destruct Hin as [r [<- Hr]].
  exists r. split; [reflexivity|].
  destruct (analyze_tickers_In tickers [] rs r Hrun Hr) as [[]|[t [_ Ht]]].
  destruct (analyze_ticker_fields t r Ht) as [Heq [_ [_ [Ha Hl]]]].
  rewrite Heq. split; assumption.
Qed.

End Entries.

(** X17.  In main.py's report the trend icon and the verdict tell the same
    story: an entry shows the DEATH icon exactly when its verdict is AVOID /
    SELL, and such an entry shows "no entry" and no suggestion. *)
Theorem main_report_death_is_avoid `{External} (tickers : list string)
    (es : list Shown) (e : Shown) :
  main_report tickers = Ret es ->
  In e es ->
  (shown_trend e = "💀 DEATH" <-> shown_verdict e = AVOID_SELL) /\
  (shown_verdict e = AVOID_SELL ->
   shown_target e = NoEntry /\ shown_suggestion e = None).
Proof.
  intros Hrun Hin.
  destruct (main_report_In tickers es e Hrun Hin) as [r [-> [Ha _]]].
  unfold report_item. cbn. rewrite Ha.
  assert (Hiff : Main.category (Main.generate_long_term_verdict (snapshot r))
                 = AVOID_SELL <-> sma50 (snapshot r) <= sma200 (snapshot r)).
  { destruct (verdict_table (snapshot r))
      as [[Hb [Hc _]]|[[Hb [_ [Hc _]]]|[[Hb [_ [_ [Hc _]]]]|
          [[Hb [_ [_ [Hc _]]]]|[Hb [_ [_ [Hc _]]]]]]]];
      rewrite Hc; split; intro H0;
      try reflexivity; try exact Hb; try discriminate H0;
      try (exfalso; apply (Qlt_not_le _ _ Hb); exact H0).
    destruct (volume_strong (snapshot r)); discriminate H0. }
  split.
  - rewrite trend_icon_death. symmetry. exact Hiff.
  - intro Hc. apply Hiff in Hc.
    destruct (verdict_table (snapshot r))
      as [[_ [_ Ht]]|[[Hb _]|[[Hb _]|[[Hb _]|[Hb _]]]]];
      try (exfalso; apply (Qlt_not_le _ _ Hb); exact Hc).
    rewrite Ht. split; [reflexivity|].
    unfold suggestion. destruct (smart_lots r); reflexivity.
Qed.

(** X18.  In main.py's report a suggestion is shown exactly when the target
    message is not "no entry"; it is a suggestion of lots exactly for a
    ticker ending in [.KL], with the lot sizer's numbers, and of one unit at
    the current price for any other ticker. *)
Theorem main_report_suggestion `{External} (tickers : list string)
    (es : list Shown) (e : Shown) :
  main_report tickers = Ret es ->
  In e es ->
  (shown_suggestion e = None <-> shown_target e = NoEntry) /\
  (forall l c k f,
      shown_suggestion e = Some (BuyLots l c k f) ->
      endswith (shown_ticker e) ".KL" = true /\
      c = shown_currency e /\
      calculate_min_lots (shown_price e) (shown_ticker e) =
      Ret (Some {| lots := l; cost := k; fee_pct := f |})) /\
  (forall c p,
      shown_suggestion e = Some (BuyOneUnit c p) ->
      endswith (shown_ticker e) ".KL" = false /\
      c = shown_currency e /\ p = shown_price e).
Proof.
  intros Hrun Hin.
  destruct (main_report_In tickers es e Hrun Hin) as [r [-> [_ Hl]]].
  unfold report_item. cbn.
  split; [apply suggestion_none_iff|]. split.
  - intros l c k f Hs. unfold suggestion in Hs.
    destruct (smart_lots r) as [[l' k' f']|] eqn:El.
    + destruct (gt _ 0); [|discriminate Hs].
      injection Hs as <- <- <- <-. cbn in Hl |- *.
      split; [exact (calculate_min_lots_some_KL _ _ _ Hl)|].
      split; [reflexivity|exact Hl].
    + destruct (gt _ 0); discriminate Hs.
  - intros c p Hs. unfold suggestion in Hs.
    destruct (smart_lots r) as [l'|] eqn:El.
    + destruct (gt _ 0); discriminate Hs.
    + destruct (gt _ 0); [|discriminate Hs].
      injection Hs as <- <-.
      split; [exact (calculate_min_lots_none_not_KL _ _ Hl)|].
      split; reflexivity.
Qed.

Lemma main_report_death_is_avoid_witness :
  exists e : Shown,
    @main_report flat_world ["1155.KL"] = Ret [e] /\
    shown_verdict e = AVOID_SELL /\
    shown_trend e = "💀 DEATH" /\
    shown_target e = NoEntry /\ shown_suggestion e = None.
Proof.
  destruct (@main_report flat_world ["1155.KL"]) as [es|ex] eqn:Hrun.
  - pose proof Hrun as Heval. vm_compute in Heval.
    injection Heval as Heval.
    destruct es as [|e [|e' es]]; try discriminate Heval.
    exists e. split; [reflexivity|].
    assert (Hc : shown_verdict e = AVOID_SELL)
      by (injection Heval as <-; reflexivity).
    destruct (@main_report_death_is_avoid flat_world _ _ e Hrun
                (or_introl eq_refl)) as [Hiff Hno].
    split; [exact Hc|]. split; [exact (proj2 Hiff Hc)|exact (Hno Hc)].
  - vm_compute in Hrun. discriminate Hrun.
Defined.

Lemma main_report_suggestion_witness :
  exists (e : Shown) (k f : Q),
    @main_report rising_world ["1155.KL"] = Ret [e] /\
    shown_suggestion e = Some (BuyLots 1 "RM" k f) /\
    endswith (shown_ticker e) ".KL" = true.
Proof.
  destruct (@main_report rising_world ["1155.KL"]) as [es|ex] eqn:Hrun.
  - pose proof Hrun as Heval. vm_compute in Heval.
    injection Heval as Heval.
    destruct es as [|e [|e' es]]; try discriminate Heval.
    assert (Hs : exists k f,
               shown_suggestion e = Some (BuyLots 1 "RM" k f))
      by (injection Heval as <-; eexists; eexists; reflexivity).
    destruct Hs as [k [f Hs]].
    exists e, k, f. split; [reflexivity|]. split; [exact Hs|].
    destruct (@main_report_suggestion rising_world _ _ e Hrun
                (or_introl eq_refl)) as [_ [Hlots _]].
    exact (proj1 (Hlots _ _ _ _ Hs)).
  - vm_compute in Hrun. discriminate Hrun.
Defined.

(** X19.  For every ticker the page of app.py shows what the report of
    main.py prints, the name apart: both skip the ticker, or both stop on
    the same exception, or both show an entry, and the two entries agree on
    every item but the name, which each takes from its own copy of
    [get_stock_info]. *)
Theorem app_shows_what_main_prints `{External} (t : string) :
  match analyze_ticker t, app_show_ticker t with
  | Ret (Some item), Ret (Some e) =>
      let m := report_item item in
      shown_name m = fst (fst (main_get_stock_info t)) /\
      shown_name e = fst (fst (app_get_stock_info t)) /\
      shown_ticker e = shown_ticker m /\
      shown_currency e = shown_currency m /\
      shown_price e = shown_price m /\
      shown_yield e = shown_yield m /\
      shown_rsi e = shown_rsi m /\
      shown_volume e = shown_volume m /\
      shown_trend e = shown_trend m /\
      shown_sma50 e = shown_sma50 m /\
      shown_sma200 e = shown_sma200 m /\
      shown_verdict e = shown_verdict m /\
      shown_target e = shown_target m /\
      shown_suggestion e = shown_suggestion m
  | Ret None, Ret None => True
  | Raise ex, Raise ex' => ex = ex'
  | _, _ => False
  end.
Proof.
  unfold analyze_ticker, app_show_ticker,
    main_get_stock_info, app_get_stock_info.
  destruct (ticker_info t) as [info|];
    (destruct (negb (empty (fetch_data t))); [|exact I]);
    (destruct (analyze_stock (fetch_data t)) as [stats|]; [|exact I]);
    (destruct (calculate_min_lots (price stats) t) as [l|ex];
       [|reflexivity]);
    simpl bind; unfold report_item; cbn;
    rewrite app_verdict_of_main; cbn;
    repeat split; reflexivity.
Qed.

(** ** Snapshots and messages *)




(** X21.  The three target messages by the position of the target: "no
    entry" exactly for a target of 0 or less, "buy now" exactly for a
    positive target that the price does not exceed (a price below the
    target included), and "wait for the target" exactly for a positive
    target below the price. *)
Theorem target_str_classification (curr : string) (price target : Q) :
  (target_str curr price target = NoEntry <-> target <= 0) /\
  (target_str curr price target = BuyNow <->
   0 < target /\ price <= target) /\
  ((exists c t d, target_str curr price target = WaitFor c t d) <->
   0 < target /\ target < price).
Proof.
  unfold target_str.
  destruct (gt target 0) eqn:Epos; cbn [andb].
  - apply gt_true_iff in Epos.
    destruct (gt price target) eqn:Egt.
    + apply gt_true_iff in Egt. split; [|split]; split.
      * discriminate.
      * intro H0. exfalso. apply (Qlt_not_le _ _ Epos). exact H0.
      * discriminate.
      * intros [_ H0]. exfalso. apply (Qlt_not_le _ _ Egt). exact H0.
      * intros _. split; assumption.
      * intros _. eexists. eexists. eexists. reflexivity.
    + apply gt_false_iff in Egt. split; [|split]; split.
      * discriminate.
      * intro H0. exfalso. apply (Qlt_not_le _ _ Epos). exact H0.
      * intros _. split; assumption.
      * reflexivity.
      * intros [c [t [d H0]]]. discriminate H0.
      * intros [_ H0]. exfalso. apply (Qlt_not_le _ _ H0). exact Egt.
  - apply gt_false_iff in Epos. split; [|split]; split.
    + intros _. exact Epos.
    + reflexivity.
    + discriminate.
    + intros [H0 _]. exfalso. apply (Qlt_not_le _ _ H0). exact Epos.
    + intros [c [t [d H0]]]. discriminate H0.
    + intros [H0 _]. exfalso. apply (Qlt_not_le _ _ H0). exact Epos.
Qed.
